(** * Talisman detection results: accumulation, queries and reporting

    A shallow embedding of [detector/helpers/detection_results.go].

    - Go strings are byte strings: [string] from the standard library
      (a list of 8-bit [ascii]); [len] and slicing count bytes.
    - Go [int] counters are 64-bit signed integers, modelled as [Z] with the
      wrap-around of [++] written out ([wrap_int]).
    - A slice [[]T] is modelled by the list of its elements, [append] by
      list concatenation.  That is exact for the lists of ledgers and of
      findings, and for the categories, messages, severities and counters
      of a run.  It is not exact for the elements of [Commits]: [Fail] and
      [Warn] store the caller's slice itself, sharing its backing array,
      and [append] to it in place while its capacity allows.  Module
      [Slices] therefore gives [Fail] and [Warn] a second time, over slice
      headers and a store of backing arrays; what is proved about the
      elements of [Commits] is proved there, and the two levels are shown
      to agree on everything else.
    - The accumulating methods ([Fail], [Warn], [Ignore]) are functions from
      run state to run state.  The reporting methods run in a small monad
      [M] over the run state and standard output, with [Panic] for a nil
      pointer dereference or an out-of-range slice expression. *)

From Stdlib Require Import Bool Arith ZArith List Ascii String DecimalString Lia.
Import ListNotations.

Local Open Scope string_scope.
Local Open Scope list_scope.

(** ** Integers and strings as Go has them *)

Module GoInt.

Local Open Scope Z_scope.

Definition int_bits : Z := 64.
Definition max_int : Z := 2 ^ (int_bits - 1) - 1.
Definition min_int : Z := - 2 ^ (int_bits - 1).

(** Two's-complement wrap-around of a mathematical integer into [int]. *)
Definition wrap_int (z : Z) : Z :=
  (z - min_int) mod 2 ^ int_bits + min_int.

(** [x++] on an [int]. *)
Definition incr (x : Z) : Z := wrap_int (x + 1).

End GoInt.

Module GoString.

(** [strings.Compare]: -1, 0 or +1 by bytewise lexicographic order. *)
Definition strings_Compare (a b : string) : Z :=
  match String.compare a b with
  | Eq => 0%Z
  | Lt => (-1)%Z
  | Gt => 1%Z
  end.

Definition newline : string := String (ascii_of_nat 10) EmptyString.
Definition esc : string := String (ascii_of_nat 27) EmptyString.

(** The verb [%v] of package [fmt] applied to a [[]byte]: the bytes as
    decimal numbers, separated by spaces, in square brackets. *)
Definition decimal (n : nat) : string :=
  NilZero.string_of_uint (Nat.to_uint n).

Definition format_v_bytes (b : string) : string :=
  ("[" ++ String.concat " " (map (fun c => decimal (nat_of_ascii c)) (list_ascii_of_string b))
   ++ "]")%string.

End GoString.

Import GoInt GoString.

(** ** Data model *)

(** Modelled from the spec: package [talisman/detector/severity] is not part
    of the sources at hand; the specification describes [Severity] as an
    ordered enumeration, Low < Medium < High, with a textual rendering. *)
Inductive Severity : Type := Low | Medium | High.

Definition Severity_String (s : Severity) : string :=
  match s with
  | Low => "low"
  | Medium => "medium"
  | High => "high"
  end.

(** [gitrepo.FilePath] is a string type compared with [==]. *)
Definition FilePath : Type := string.

(** Modelled from the spec: [talismanrc.Mode] is declared outside the sources
    at hand; the results only store the mode and pass it on to the
    configuration collaborator, so it is kept as an uninterpreted tag. *)
Definition Mode : Type := Z.

Record Details : Type := mkDetails {
  Category : string;
  Message : string;
  Commits : list string;
  Severity_ : Severity
}.

Record ResultsDetails : Type := mkResultsDetails {
  Filename : FilePath;
  FailureList : list Details;
  WarningList : list Details;
  IgnoreList : list Details
}.

Record FailureTypes : Type := mkFailureTypes {
  Filecontent : Z;
  Filesize : Z;
  Filename_ : Z;
  Warnings : Z;
  Ignores : Z
}.

Record ResultsSummary : Type := mkResultsSummary {
  Types : FailureTypes
}.

Record DetectionResults : Type := mkDetectionResults {
  mode : Mode;
  Summary : ResultsSummary;
  Results : list ResultsDetails
}.

(** Field updates, as the assignments of the source perform them. *)
Definition set_Commits (d : Details) (c : list string) : Details :=
  mkDetails (Category d) (Message d) c (Severity_ d).

Definition set_Message (d : Details) (m : string) : Details :=
  mkDetails (Category d) m (Commits d) (Severity_ d).

Definition set_FailureList (rd : ResultsDetails) (l : list Details) : ResultsDetails :=
  mkResultsDetails (Filename rd) l (WarningList rd) (IgnoreList rd).

Definition set_WarningList (rd : ResultsDetails) (l : list Details) : ResultsDetails :=
  mkResultsDetails (Filename rd) (FailureList rd) l (IgnoreList rd).

Definition set_IgnoreList (rd : ResultsDetails) (l : list Details) : ResultsDetails :=
  mkResultsDetails (Filename rd) (FailureList rd) (WarningList rd) l.

Definition set_Results (r : DetectionResults) (l : list ResultsDetails) : DetectionResults :=
  mkDetectionResults (mode r) (Summary r) l.

Definition set_Types (r : DetectionResults) (t : FailureTypes) : DetectionResults :=
  mkDetectionResults (mode r) (mkResultsSummary t) (Results r).

(** ** Accumulation *)

Definition NewDetectionResults (m : Mode) : DetectionResults :=
  mkDetectionResults m (mkResultsSummary (mkFailureTypes 0 0 0 0 0)) [].

(** The test of the inner loops of [Fail] and [Warn]. *)
Definition sameCategoryAndMessage (category message : string) (d : Details) : bool :=
  ((strings_Compare (Category d) category =? 0)%Z
   && (strings_Compare (Message d) message =? 0)%Z)%bool.

(** The test of the inner loop of [Ignore]. *)
Definition sameCategory (category : string) (d : Details) : bool :=
  (strings_Compare (Category d) category =? 0)%Z.

(** Inner loop of [Fail] and [Warn] over one list of details: every matching
    entry gets [commits] appended; the flag tells whether one matched. *)
Fixpoint mergeCommits (category message : string) (commits : list string)
    (details : list Details) (present : bool) : list Details * bool :=
  match details with
  | [] => ([], present)
  | d :: rest =>
      if sameCategoryAndMessage category message d
      then
        let '(rest', p) := mergeCommits category message commits rest true in
        (set_Commits d (Commits d ++ commits) :: rest', p)
      else
        let '(rest', p) := mergeCommits category message commits rest present in
        (d :: rest', p)
  end.

(** Body of the outer loop for one matching file: merge, else append. *)
Definition recordDetails (category message : string) (commits : list string)
    (severity : Severity) (details : list Details) : list Details :=
  let '(details', isEntryPresentForGivenCategoryAndMessage) :=
    mergeCommits category message commits details false in
  if negb isEntryPresentForGivenCategoryAndMessage
  then details' ++ [mkDetails category message commits severity]
  else details'.

(** Inner loop of [Ignore]: only the flag is computed. *)
Fixpoint categoryPresent (category : string) (details : list Details)
    (present : bool) : bool :=
  match details with
  | [] => present
  | d :: rest =>
      if sameCategory category d
      then categoryPresent category rest true
      else categoryPresent category rest present
  end.

Definition recordIgnore (category : string) (details : list Details) : list Details :=
  let isEntryPresentForGivenCategory := categoryPresent category details false in
  if negb isEntryPresentForGivenCategory
  then details ++ [mkDetails category "" [] Low]
  else details.

(** The outer loop shared by the three recording methods: every ledger whose
    [Filename] equals [filePath] is updated by [body]; the flag is
    [isFilePresentInResults]. *)
Fixpoint forEachResult (filePath : FilePath) (body : ResultsDetails -> ResultsDetails)
    (results : list ResultsDetails) (present : bool) : list ResultsDetails * bool :=
  match results with
  | [] => ([], present)
  | rd :: rest =>
      if String.eqb (Filename rd) filePath
      then
        let '(rest', p) := forEachResult filePath body rest true in
        (body rd :: rest', p)
      else
        let '(rest', p) := forEachResult filePath body rest present in
        (rd :: rest', p)
  end.

Definition updateResultsSummary (r : DetectionResults) (category : string) : DetectionResults :=
  let t := Types (Summary r) in
  if String.eqb category "filecontent" then
    set_Types r (mkFailureTypes (incr (Filecontent t)) (Filesize t) (Filename_ t) (Warnings t) (Ignores t))
  else if String.eqb category "filename" then
    set_Types r (mkFailureTypes (Filecontent t) (Filesize t) (incr (Filename_ t)) (Warnings t) (Ignores t))
  else if String.eqb category "filesize" then
    set_Types r (mkFailureTypes (Filecontent t) (incr (Filesize t)) (Filename_ t) (Warnings t) (Ignores t))
  else r.

Definition incrWarnings (r : DetectionResults) : DetectionResults :=
  let t := Types (Summary r) in
  set_Types r (mkFailureTypes (Filecontent t) (Filesize t) (Filename_ t) (incr (Warnings t)) (Ignores t)).

Definition incrIgnores (r : DetectionResults) : DetectionResults :=
  let t := Types (Summary r) in
  set_Types r (mkFailureTypes (Filecontent t) (Filesize t) (Filename_ t) (Warnings t) (incr (Ignores t))).

Definition emptyResultsDetails (filePath : FilePath) : ResultsDetails :=
  mkResultsDetails filePath [] [] [].

Definition Fail (r : DetectionResults) (filePath : FilePath) (category message : string)
    (commits : list string) (severity : Severity) : DetectionResults :=
  let '(results, isFilePresentInResults) :=
    forEachResult filePath
      (fun rd => set_FailureList rd
                   (recordDetails category message commits severity (FailureList rd)))
      (Results r) false in
  let r1 :=
    if negb isFilePresentInResults
    then
      let failureDetails := mkDetails category message commits severity in
      let resultDetails := emptyResultsDetails filePath in
      let resultDetails := set_FailureList resultDetails (FailureList resultDetails ++ [failureDetails]) in
      set_Results r (results ++ [resultDetails])
    else set_Results r results in
  updateResultsSummary r1 category.

Definition Warn (r : DetectionResults) (filePath : FilePath) (category message : string)
    (commits : list string) (severity : Severity) : DetectionResults :=
  let '(results, isFilePresentInResults) :=
    forEachResult filePath
      (fun rd => set_WarningList rd
                   (recordDetails category message commits severity (WarningList rd)))
      (Results r) false in
  let r1 :=
    if negb isFilePresentInResults
    then
      let warningDetails := mkDetails category message commits severity in
      let resultDetails := emptyResultsDetails filePath in
      let resultDetails := set_WarningList resultDetails (WarningList resultDetails ++ [warningDetails]) in
      set_Results r (results ++ [resultDetails])
    else set_Results r results in
  incrWarnings r1.

Definition Ignore (r : DetectionResults) (filePath : FilePath) (category : string) : DetectionResults :=
  let '(results, isFilePresentInResults) :=
    forEachResult filePath
      (fun rd => set_IgnoreList rd (recordIgnore category (IgnoreList rd)))
      (Results r) false in
  let r1 :=
    if negb isFilePresentInResults
    then
      let ignoreDetails := mkDetails category "" [] Low in
      let resultDetails := emptyResultsDetails filePath in
      let resultDetails := set_IgnoreList resultDetails (IgnoreList resultDetails ++ [ignoreDetails]) in
      set_Results r (results ++ [resultDetails])
    else set_Results r results in
  incrIgnores r1.

(** ** Queries *)

Definition HasFailures (r : DetectionResults) : bool :=
  let t := Types (Summary r) in
  ((Filesize t >? 0)%Z || (Filename_ t >? 0)%Z || (Filecontent t >? 0)%Z)%bool.

Definition HasIgnores (r : DetectionResults) : bool :=
  (Ignores (Types (Summary r)) >? 0)%Z.

Definition HasWarnings (r : DetectionResults) : bool :=
  (Warnings (Types (Summary r)) >? 0)%Z.

Definition HasDetectionMessages (r : DetectionResults) : bool :=
  (HasWarnings r || HasFailures r || HasIgnores r)%bool.

Definition Successful (r : DetectionResults) : bool :=
  negb (HasFailures r).

(** A sequence of recording calls, as a detector chain issues them. *)
Inductive Call : Type :=
| CallFail (filePath : FilePath) (category message : string)
           (commits : list string) (severity : Severity)
| CallWarn (filePath : FilePath) (category message : string)
           (commits : list string) (severity : Severity)
| CallIgnore (filePath : FilePath) (category : string).

Definition perform (r : DetectionResults) (c : Call) : DetectionResults :=
  match c with
  | CallFail p c m cs s => Fail r p c m cs s
  | CallWarn p c m cs s => Warn r p c m cs s
  | CallIgnore p c => Ignore r p c
  end.

Definition run (calls : list Call) (r : DetectionResults) : DetectionResults :=
  fold_left perform calls r.

(** ** The reporting monad *)

(** Modelled from the spec: [talismanrc.IgnoreConfig] and
    [talismanrc.BuildIgnoreConfig] live outside the sources at hand; the
    specification gives the candidate entry as
    [{filePath, checksum, extraContent}], built from exactly these
    arguments. *)
Record IgnoreConfig : Type := mkIgnoreConfig {
  GetFileName : string;
  CheckSum : string;
  AllowedPatterns : list string
}.

Definition BuildIgnoreConfig (m : Mode) (filePath checksum : string)
    (allowedPatterns : list string) : IgnoreConfig :=
  mkIgnoreConfig filePath checksum allowedPatterns.

(** What a run does to the outside world, in the order it happens. *)
Inductive Event : Type :=
| Print (text : string)
| RenderTable (header : list string) (rows : list (list string))
| Confirm (promptText : string) (answer : bool)
| AddIgnores (m : Mode) (entries : list IgnoreConfig)
| ExecCommand (argv : list string)
| LogError (text : string).

Record World : Type := mkWorld {
  results : DetectionResults;
  stdout : list Event
}.

Inductive outcome (A : Type) : Type :=
| Ok (a : A)
| Panic.

Arguments Ok {A} a.
Arguments Panic {A}.

Definition M (A : Type) : Type := World -> outcome (A * World).

Definition ret {A : Type} (a : A) : M A :=
  fun w => Ok (a, w).

Definition bind {A B : Type} (m : M A) (k : A -> M B) : M B :=
  fun w =>
    match m w with
    | Ok (a, w') => k a w'
    | Panic => Panic
    end.

Declare Scope go_scope.
Delimit Scope go_scope with go.
Notation "x <- m ;; k" := (bind m (fun x => k))
  (at level 61, m at next level, right associativity) : go_scope.
Notation "m ;;; k" := (bind m (fun _ => k))
  (at level 61, right associativity) : go_scope.
Local Open Scope go_scope.

Definition panic {A : Type} : M A :=
  fun _ => Panic.

(** The receiver [r]. *)
Definition receiver : M DetectionResults :=
  fun w => Ok (results w, w).

Definition emit (e : Event) : M unit :=
  fun w => Ok (tt, mkWorld (results w) (stdout w ++ [e])).

(** Selecting a field through a pointer: a nil pointer panics. *)
Definition deref {A : Type} (p : option A) : M A :=
  match p with
  | Some a => ret a
  | None => panic
  end.

(** The slice expression [s[lo:hi]] on a string. *)
Definition slice (s : string) (lo hi : nat) : M string :=
  if ((lo <=? hi)%nat && (hi <=? String.length s)%nat)%bool
  then ret (substring lo (hi - lo) s)
  else panic.

(** ** Lookups *)

(** The loop of [getResultDetailsForFilePath] over a slice of ledgers: the
    address of a copy of the first ledger with that name, or nil. *)
Fixpoint findResultDetails (fileName : FilePath) (l : list ResultsDetails)
    : option ResultsDetails :=
  match l with
  | [] => None
  | resultDetail :: rest =>
      if String.eqb (Filename resultDetail) fileName
      then Some resultDetail
      else findResultDetails fileName rest
  end.

Definition getResultDetailsForFilePath (fileName : FilePath) : M (option ResultsDetails) :=
  r <- receiver ;;
  ret (findResultDetails fileName (Results r)).

Definition GetFailures (fileName : FilePath) : M (list Details) :=
  results <- getResultDetailsForFilePath fileName ;;
  match results with
  | None => ret []
  | Some _ =>
      rd <- deref results ;;
      ret (FailureList rd)
  end.

(** ** Rendering rows *)

(** The body of the [range] loops of [ReportFileFailures] and
    [ReportFileWarnings]; [detail] is the loop's own copy of the element. *)
Definition reportDetail (filePath : FilePath) (detail : Details)
    (data : list (list string)) : M (list (list string)) :=
  detail <- (if (150 <? String.length (Message detail))%nat
             then
               head <- slice (Message detail) 0 75 ;;
               tail <- slice (Message detail) 75 147 ;;
               ret (set_Message detail (head ++ newline ++ tail ++ "..."))
             else ret detail) ;;
  ret (data ++ [[filePath; Message detail; Severity_String (Severity_ detail)]]).

Fixpoint reportDetails (filePath : FilePath) (details : list Details)
    (data : list (list string)) : M (list (list string)) :=
  match details with
  | [] => ret data
  | detail :: rest =>
      data <- reportDetail filePath detail data ;;
      reportDetails filePath rest data
  end.

Definition ReportFileFailures (filePath : FilePath) : M (list (list string)) :=
  p <- getResultDetailsForFilePath filePath ;;
  rd <- deref p ;;
  let failureList := FailureList rd in
  if (0 <? List.length failureList)%nat
  then reportDetails filePath failureList []
  else ret [].

Definition ReportFileWarnings (filePath : FilePath) : M (list (list string)) :=
  p <- getResultDetailsForFilePath filePath ;;
  rd <- deref p ;;
  let warningList := WarningList rd in
  if (0 <? List.length warningList)%nat
  then reportDetails filePath warningList []
  else ret [].

(** Modelled from the spec: [utility.UniqueItems] is not part of the sources
    at hand; the specification asks for a case-sensitive, exact,
    order-preserving removal of duplicates. *)
Fixpoint UniqueItems_from (seen items : list string) : list string :=
  match items with
  | [] => []
  | entry :: rest =>
      if existsb (String.eqb entry) seen
      then UniqueItems_from seen rest
      else entry :: UniqueItems_from (entry :: seen) rest
  end.

Definition UniqueItems (items : list string) : list string :=
  UniqueItems_from [] items.

(** ** Reports and the suggestion workflow *)

Record PromptContext : Type := mkPromptContext {
  Interactive : bool;
  Prompt_Confirm : string -> bool
}.

Definition warningsBanner : string :=
  newline ++ esc ++ "[1m" ++ esc ++ "[31mTalisman Warnings:" ++ esc ++ "[0m" ++ esc ++ "[0m" ++ newline.

Definition reportBanner : string :=
  newline ++ esc ++ "[1m" ++ esc ++ "[31mTalisman Report:" ++ esc ++ "[0m" ++ esc ++ "[0m" ++ newline.

Definition reviewHint : string :=
  newline ++ esc ++ "[33mPlease review the above file(s) to make sure that no sensitive content is being pushed" ++ esc ++ "[0m" ++ newline.

Definition suggestString : string :=
  newline ++ esc ++ "[33mIf you are absolutely sure that you want to ignore the "
  ++ "above files from talisman detectors, consider pasting the following format in .talismanrc file"
  ++ " in the project root" ++ esc ++ "[0m" ++ newline.

Section Reporting.

(** Collaborators outside this file: the hashing utility, the host platform,
    the YAML marshaller (bytes and error), and the outcome of staging the
    configuration file (the bytes of the combined output and the error).
    They are taken to return. *)
Variable CollectiveSHA256Hash : list string -> string.
Variable GOOS : string.
Variable yaml_Marshal_config : IgnoreConfig -> string * option string.
Variable yaml_Marshal_rc : list IgnoreConfig -> string.
Variable git_add_talismanrc : string * option string.

(** The [range] loop of [ReportWarnings]. *)
Fixpoint collectWarnings (l : list ResultsDetails) (filePathsForWarnings : list string)
    (data : list (list string)) : M (list string * list (list string)) :=
  match l with
  | [] => ret (filePathsForWarnings, data)
  | resultDetails :: rest =>
      if (0 <? List.length (WarningList resultDetails))%nat
      then
        warningData <- ReportFileWarnings (Filename resultDetails) ;;
        collectWarnings rest (filePathsForWarnings ++ [Filename resultDetails])
                        (data ++ warningData)
      else collectWarnings rest filePathsForWarnings data
  end.

Definition ReportWarnings : M string :=
  let result := "" in
  r <- receiver ;;
  collected <- collectWarnings (Results r) [] [] ;;
  let '(filePathsForWarnings, data) := collected in
  let filePathsForWarnings := UniqueItems filePathsForWarnings in
  r <- receiver ;;
  if (Warnings (Types (Summary r)) >? 0)%Z
  then
    emit (Print warningsBanner) ;;;
    emit (RenderTable ["File"; "Warnings"; "Severity"] data) ;;;
    let result := (result ++ reviewHint)%string in
    let result := (result ++ newline)%string in
    ret result
  else ret result.

(** The first loop of [suggestTalismanRC]. *)
Definition buildEntries (m : Mode) (filePaths : list string) : list IgnoreConfig :=
  map (fun filePath =>
         let currentChecksum := CollectiveSHA256Hash [filePath] in
         BuildIgnoreConfig m filePath currentChecksum [])
      filePaths.

Definition confirm (config : IgnoreConfig) (promptContext : PromptContext) : M bool :=
  let '(bytes, err) := yaml_Marshal_config config in
  match err with
  | Some e => emit (LogError ("error marshalling file ignore config: " ++ e))
  | None => ret tt
  end ;;;
  emit (Print newline) ;;;
  emit (Print (bytes ++ newline)) ;;;
  let confirmationString :=
    ("Do you want to add " ++ GetFileName config ++ " with above checksum in talismanrc ?")%string in
  let answer := Prompt_Confirm promptContext confirmationString in
  emit (Confirm confirmationString answer) ;;;
  ret answer.

Fixpoint confirmEach (configs confirmed : list IgnoreConfig) (promptContext : PromptContext)
    : M (list IgnoreConfig) :=
  match configs with
  | [] => ret confirmed
  | config :: rest =>
      yes <- confirm config promptContext ;;
      if yes
      then confirmEach rest (confirmed ++ [config]) promptContext
      else confirmEach rest confirmed promptContext
  end.

Definition getUserConfirmation (configs : list IgnoreConfig) (promptContext : PromptContext)
    : M (list IgnoreConfig) :=
  (if negb (List.length configs =? 0)%nat
   then emit (Print ("==== Interactively adding to talismanrc ====" ++ newline))
   else ret tt) ;;;
  confirmEach configs [] promptContext.

Definition printTalismanIgnoreSuggestion (entriesToAdd : list IgnoreConfig) : M unit :=
  let ignoreEntries := yaml_Marshal_rc entriesToAdd in
  emit (Print (suggestString ++ newline)) ;;;
  emit (Print (ignoreEntries ++ newline)).

(** What [suggestTalismanRC] does with the entries it has built. *)
Definition offerEntries (m : Mode) (entriesToAdd : list IgnoreConfig)
    (promptContext : PromptContext) : M unit :=
  if (Interactive promptContext && negb (String.eqb GOOS "windows"))%bool
  then
    confirmedEntries <- getUserConfirmation entriesToAdd promptContext ;;
    emit (AddIgnores m confirmedEntries) ;;;
    let '(output, err) := git_add_talismanrc in
    emit (ExecCommand ["git"; "add"; ".talismanrc"]) ;;;
    match err with
    | Some _ => emit (LogError ("Error appending to talismanrc " ++ format_v_bytes output))
    | None => ret tt
    end
  else printTalismanIgnoreSuggestion entriesToAdd.

Definition suggestTalismanRC (filePaths : list string) (promptContext : PromptContext)
    : M unit :=
  r <- receiver ;;
  let entriesToAdd := buildEntries (mode r) filePaths in
  offerEntries (mode r) entriesToAdd promptContext.

(** The [range] loop of [Report]. *)
Fixpoint collectFailures (l : list ResultsDetails)
    (filePathsForIgnoresAndFailures : list string) (data : list (list string))
    : M (list string * list (list string)) :=
  match l with
  | [] => ret (filePathsForIgnoresAndFailures, data)
  | resultDetails :: rest =>
      if ((0 <? List.length (FailureList resultDetails))%nat
          || (0 <? List.length (IgnoreList resultDetails))%nat)%bool
      then
        failureData <- ReportFileFailures (Filename resultDetails) ;;
        collectFailures rest (filePathsForIgnoresAndFailures ++ [Filename resultDetails])
                        (data ++ failureData)
      else collectFailures rest filePathsForIgnoresAndFailures data
  end.

Definition Report (promptContext : PromptContext) : M string :=
  let result := "" in
  r <- receiver ;;
  collected <- collectFailures (Results r) [] [] ;;
  let '(filePathsForIgnoresAndFailures, data) := collected in
  let filePathsForIgnoresAndFailures := UniqueItems filePathsForIgnoresAndFailures in
  r <- receiver ;;
  (if HasFailures r
   then
     emit (Print reportBanner) ;;;
     emit (RenderTable ["File"; "Errors"; "Severity"] data) ;;;
     emit (Print newline) ;;;
     suggestTalismanRC filePathsForIgnoresAndFailures promptContext
   else ret tt) ;;;
  ret result.

End Reporting.

(** ** Helpers on one ledger *)


(** [getDetailsByCategoryAndMessage]: the address of a copy of the first
    entry with that category and message, or nil. *)
Fixpoint getDetailsByCategoryAndMessage (detailsList : list Details)
    (category failureMessage : string) : option Details :=
  match detailsList with
  | [] => None
  | detail :: rest =>
      if sameCategoryAndMessage category failureMessage detail
      then Some detail
      else getDetailsByCategoryAndMessage rest category failureMessage
  end.


Definition getFailureDataByCategoryAndMessage (r : ResultsDetails)
    (failureMessage category : string) : Details * ResultsDetails :=
  let detail := getDetailsByCategoryAndMessage (FailureList r) category failureMessage in
  match detail with
  | None =>
      let detail := mkDetails category failureMessage [] Low in
      (detail, set_FailureList r (FailureList r ++ [detail]))
  | Some detail => (detail, r)
  end.

Definition addIgnoreDataByCategory (r : ResultsDetails) (category : string)
    : ResultsDetails :=
  let isCategoryAlreadyPresent := categoryPresent category (IgnoreList r) false in
  if negb isCategoryAlreadyPresent
  then
    let detail := mkDetails category "" [] Low in
    set_IgnoreList r (IgnoreList r ++ [detail])
  else r.

(** ** Commits as slices over a store *)

(** The recording methods keep the [commits] slice they are given: [Fail]
    and [Warn] store it in the new finding and later [append] to the stored
    slice, in place when its capacity allows.  The definitions above hold
    commits as lists, which is exact for categories, messages, severities,
    file names and counters; what the commits of a finding contain depends
    on the backing arrays, so [Fail] and [Warn] are given here a second
    time, over slices and a store of backing arrays. *)
Module Slices.

(** A slice header: the backing array, where the slice starts in it, its
    length and its capacity (counted from the start of the slice). *)
Record slice : Type := mkSlice {
  array : nat;
  offset : nat;
  len : nat;
  cap : nat
}.

(** The backing arrays, by number. *)
Definition store : Type := list (list string).

(** The elements of a slice. *)
Definition contents (h : store) (s : slice) : list string :=
  firstn (len s) (skipn (offset s) (nth (array s) h [])).


(** Overwriting the elements of an array from position [pos] on. *)
Definition write (arr : list string) (pos : nat) (xs : list string) : list string :=
  firstn pos arr ++ xs ++ skipn (pos + List.length xs) arr.

Definition setArray (h : store) (i : nat) (arr : list string) : store :=
  firstn i h ++ arr :: skipn (S i) h.

Record Details : Type := mkDetails {
  Category : string;
  Message : string;
  Commits : slice;
  Severity_ : Severity
}.

Record ResultsDetails : Type := mkResultsDetails {
  Filename : FilePath;
  FailureList : list Details;
  WarningList : list Details;
  IgnoreList : list Details
}.

Record DetectionResults : Type := mkDetectionResults {
  mode : Mode;
  Summary : ResultsSummary;
  Results : list ResultsDetails
}.

Definition set_Commits (d : Details) (c : slice) : Details :=
  mkDetails (Category d) (Message d) c (Severity_ d).

Definition set_FailureList (rd : ResultsDetails) (l : list Details) : ResultsDetails :=
  mkResultsDetails (Filename rd) l (WarningList rd) (IgnoreList rd).

Definition set_WarningList (rd : ResultsDetails) (l : list Details) : ResultsDetails :=
  mkResultsDetails (Filename rd) (FailureList rd) l (IgnoreList rd).

Definition set_Results (r : DetectionResults) (l : list ResultsDetails) : DetectionResults :=
  mkDetectionResults (mode r) (Summary r) l.

Definition set_Types (r : DetectionResults) (t : FailureTypes) : DetectionResults :=
  mkDetectionResults (mode r) (mkResultsSummary t) (Results r).

Definition sameCategoryAndMessage (category message : string) (d : Details) : bool :=
  ((strings_Compare (Category d) category =? 0)%Z
   && (strings_Compare (Message d) message =? 0)%Z)%bool.

Definition updateResultsSummary (r : DetectionResults) (category : string) : DetectionResults :=
  let t := Types (Summary r) in
  if String.eqb category "filecontent" then
    set_Types r (mkFailureTypes (incr (Filecontent t)) (Filesize t) (Filename_ t) (Warnings t) (Ignores t))
  else if String.eqb category "filename" then
    set_Types r (mkFailureTypes (Filecontent t) (Filesize t) (incr (Filename_ t)) (Warnings t) (Ignores t))
  else if String.eqb category "filesize" then
    set_Types r (mkFailureTypes (Filecontent t) (incr (Filesize t)) (Filename_ t) (Warnings t) (Ignores t))
  else r.

Definition incrWarnings (r : DetectionResults) : DetectionResults :=
  let t := Types (Summary r) in
  set_Types r (mkFailureTypes (Filecontent t) (Filesize t) (Filename_ t) (incr (Warnings t)) (Ignores t)).

Definition emptyResultsDetails (filePath : FilePath) : ResultsDetails :=
  mkResultsDetails filePath [] [] [].

(** The loop of [getResultDetailsForFilePath]. *)
Fixpoint findResultDetails (fileName : FilePath) (l : list ResultsDetails)
    : option ResultsDetails :=
  match l with
  | [] => None
  | resultDetail :: rest =>
      if String.eqb (Filename resultDetail) fileName
      then Some resultDetail
      else findResultDetails fileName rest
  end.


Section Growth.

(** The capacity the runtime picks when [append] has to grow a slice of
    capacity [old] to hold [needed] elements; at least [needed] is taken. *)
Variable growslice : nat -> nat -> nat.

(** [append(s, xs...)]: in place when the capacity suffices, else into a new
    array holding the old elements, the new ones and zero values up to the
    new capacity. *)
Definition append (h : store) (s : slice) (xs : list string) : store * slice :=
  let needed := len s + List.length xs in
  if (needed <=? cap s)%nat
  then
    (setArray h (array s) (write (nth (array s) h []) (offset s + len s) xs),
     mkSlice (array s) (offset s) needed (cap s))
  else
    let newcap := Nat.max needed (growslice (cap s) needed) in
    (h ++ [contents h s ++ xs ++ repeat EmptyString (newcap - needed)],
     mkSlice (List.length h) 0 needed newcap).

(** Inner loop of [Fail] and [Warn]: every matching entry gets the elements
    of [commits], as they are when it is reached, appended to its slice. *)
Fixpoint mergeCommits (category message : string) (commits : slice) (h : store)
    (details : list Details) (present : bool) : store * list Details * bool :=
  match details with
  | [] => (h, [], present)
  | d :: rest =>
      if sameCategoryAndMessage category message d
      then
        let '(h1, merged) := append h (Commits d) (contents h commits) in
        let '(h2, rest', p) := mergeCommits category message commits h1 rest true in
        (h2, set_Commits d merged :: rest', p)
      else
        let '(h2, rest', p) := mergeCommits category message commits h rest present in
        (h2, d :: rest', p)
  end.

(** Body of the outer loop for one matching file: merge, else append a
    finding that holds the slice [commits] itself. *)
Definition recordDetails (category message : string) (commits : slice)
    (severity : Severity) (h : store) (details : list Details) : store * list Details :=
  let '(h', details', isEntryPresentForGivenCategoryAndMessage) :=
    mergeCommits category message commits h details false in
  if negb isEntryPresentForGivenCategoryAndMessage
  then (h', details' ++ [mkDetails category message commits severity])
  else (h', details').

Fixpoint forEachResult (filePath : FilePath)
    (body : store -> ResultsDetails -> store * ResultsDetails)
    (h : store) (results : list ResultsDetails) (present : bool)
    : store * list ResultsDetails * bool :=
  match results with
  | [] => (h, [], present)
  | rd :: rest =>
      if String.eqb (Filename rd) filePath
      then
        let '(h1, rd') := body h rd in
        let '(h2, rest', p) := forEachResult filePath body h1 rest true in
        (h2, rd' :: rest', p)
      else
        let '(h2, rest', p) := forEachResult filePath body h rest present in
        (h2, rd :: rest', p)
  end.

Definition failBody (category message : string) (commits : slice) (severity : Severity)
    (h : store) (rd : ResultsDetails) : store * ResultsDetails :=
  let '(h', l) := recordDetails category message commits severity h (FailureList rd) in
  (h', set_FailureList rd l).

Definition warnBody (category message : string) (commits : slice) (severity : Severity)
    (h : store) (rd : ResultsDetails) : store * ResultsDetails :=
  let '(h', l) := recordDetails category message commits severity h (WarningList rd) in
  (h', set_WarningList rd l).

Definition Fail (hr : store * DetectionResults) (filePath : FilePath)
    (category message : string) (commits : slice) (severity : Severity)
    : store * DetectionResults :=
  let '(h, r) := hr in
  let '(h', results, isFilePresentInResults) :=
    forEachResult filePath (failBody category message commits severity)
      h (Results r) false in
  let r1 :=
    if negb isFilePresentInResults
    then
      let failureDetails := mkDetails category message commits severity in
      let resultDetails := emptyResultsDetails filePath in
      let resultDetails :=
        set_FailureList resultDetails (FailureList resultDetails ++ [failureDetails]) in
      set_Results r (results ++ [resultDetails])
    else set_Results r results in
  (h', updateResultsSummary r1 category).

Definition Warn (hr : store * DetectionResults) (filePath : FilePath)
    (category message : string) (commits : slice) (severity : Severity)
    : store * DetectionResults :=
  let '(h, r) := hr in
  let '(h', results, isFilePresentInResults) :=
    forEachResult filePath (warnBody category message commits severity)
      h (Results r) false in
  let r1 :=
    if negb isFilePresentInResults
    then
      let warningDetails := mkDetails category message commits severity in
      let resultDetails := emptyResultsDetails filePath in
      let resultDetails :=
        set_WarningList resultDetails (WarningList resultDetails ++ [warningDetails]) in
      set_Results r (results ++ [resultDetails])
    else set_Results r results in
  (h', incrWarnings r1).

(** A sequence of calls that differ only in the commits and the severity
    they pass, and the elements each [commits] slice has when its call is
    made. *)
Fixpoint runFail (filePath : FilePath) (category message : string)
    (args : list (slice * Severity)) (hr : store * DetectionResults)
    : store * DetectionResults :=
  match args with
  | [] => hr
  | a :: rest =>
      runFail filePath category message rest
        (Fail hr filePath category message (fst a) (snd a))
  end.

Fixpoint commitsOfFail (filePath : FilePath) (category message : string)
    (args : list (slice * Severity)) (hr : store * DetectionResults)
    : list (list string) :=
  match args with
  | [] => []
  | a :: rest =>
      contents (fst hr) (fst a)
      :: commitsOfFail filePath category message rest
           (Fail hr filePath category message (fst a) (snd a))
  end.




End Growth.

Definition NewDetectionResults (m : Mode) : DetectionResults :=
  mkDetectionResults m (mkResultsSummary (mkFailureTypes 0 0 0 0 0)) [].

(** An example: one array of three commits, of which the caller passes the
    first two, then the first, then the last; and a run state that already
    has a ledger for the path, with a failure and a warning under other
    messages, both holding the whole array. *)
Definition exampleGrowslice (old needed : nat) : nat := 2 * old.

Definition exampleStore : store := [["a"; "b"; "c"]].

Definition exampleArgs : list (slice * Severity) :=
  [(mkSlice 0 0 2 3, High); (mkSlice 0 0 1 3, Low); (mkSlice 0 2 1 1, Medium)].


(** Two findings that keep the same slice of three commits with room for a
    fourth, and one more commit for each. *)
Definition exampleSharedStore : store := [["c1"; "c2"; "c3"; ""]; ["x"]; ["y"]].

Definition exampleShared : store * DetectionResults :=
  let s := mkSlice 0 0 3 4 in
  let hr := Fail exampleGrowslice (exampleSharedStore, NewDetectionResults 1%Z)
              "p" "filecontent" "m1" s Low in
  let hr := Fail exampleGrowslice hr "p" "filecontent" "m2" s Low in
  let hr := Fail exampleGrowslice hr "p" "filecontent" "m1" (mkSlice 1 0 1 1) Low in
  Fail exampleGrowslice hr "p" "filecontent" "m2" (mkSlice 2 0 1 1) Low.

End Slices.

(** ** The two levels side by side *)

(** The run state over lists that a run state over slices stands for: every
    finding with the elements its slice has in the store. *)
Definition readDetails (h : Slices.store) (d : Slices.Details) : Details :=
  mkDetails (Slices.Category d) (Slices.Message d)
    (Slices.contents h (Slices.Commits d)) (Slices.Severity_ d).

Definition readResultsDetails (h : Slices.store) (rd : Slices.ResultsDetails)
    : ResultsDetails :=
  mkResultsDetails (Slices.Filename rd)
    (map (readDetails h) (Slices.FailureList rd))
    (map (readDetails h) (Slices.WarningList rd))
    (map (readDetails h) (Slices.IgnoreList rd)).

Definition readDetectionResults (h : Slices.store) (r : Slices.DetectionResults)
    : DetectionResults :=
  mkDetectionResults (Slices.mode r) (Slices.Summary r)
    (map (readResultsDetails h) (Slices.Results r)).

(** A run state with the commits of every finding left out. *)
Definition withoutCommitsOf (d : Details) : Details := set_Commits d [].

Definition withoutCommitsIn (rd : ResultsDetails) : ResultsDetails :=
  mkResultsDetails (Filename rd)
    (map withoutCommitsOf (FailureList rd))
    (map withoutCommitsOf (WarningList rd))
    (map withoutCommitsOf (IgnoreList rd)).

Definition withoutCommits (r : DetectionResults) : DetectionResults :=
  mkDetectionResults (mode r) (Summary r) (map withoutCommitsIn (Results r)).

(** * Vocabulary of the properties *)

Definition key (d : Details) : string * string := (Category d, Message d).

(** What one recording call does to the list of ledgers. *)
Definition recordIn (filePath : FilePath) (body : ResultsDetails -> ResultsDetails)
    (fresh : ResultsDetails) (l : list ResultsDetails) : list ResultsDetails :=
  let updated := map (fun rd => if String.eqb (Filename rd) filePath then body rd else rd) l in
  if existsb (fun rd => String.eqb (Filename rd) filePath) l
  then updated
  else updated ++ [fresh].

Definition failBody (category message : string) (commits : list string)
    (severity : Severity) (rd : ResultsDetails) : ResultsDetails :=
  set_FailureList rd (recordDetails category message commits severity (FailureList rd)).

Definition warnBody (category message : string) (commits : list string)
    (severity : Severity) (rd : ResultsDetails) : ResultsDetails :=
  set_WarningList rd (recordDetails category message commits severity (WarningList rd)).

Definition ignoreBody (category : string) (rd : ResultsDetails) : ResultsDetails :=
  set_IgnoreList rd (recordIgnore category (IgnoreList rd)).

Definition ledgerWellFormed (rd : ResultsDetails) : Prop :=
  NoDup (map key (FailureList rd)) /\
  NoDup (map key (WarningList rd)) /\
  NoDup (map Category (IgnoreList rd)).

Definition wellFormed (r : DetectionResults) : Prop :=
  NoDup (map Filename (Results r)) /\ Forall ledgerWellFormed (Results r).


Definition countedCategory (category : string) : Prop :=
  category = "filecontent" \/ category = "filesize" \/ category = "filename".

Definition failureCountersWithin (k : Z) (r : DetectionResults) : Prop :=
  let t := Types (Summary r) in
  (0 <= Filecontent t <= k /\ 0 <= Filesize t <= k /\ 0 <= Filename_ t <= k)%Z.

Definition tallyWithin (k : Z) (r : DetectionResults) : Prop :=
  let t := Types (Summary r) in
  (0 <= Warnings t <= k /\ 0 <= Ignores t <= k)%Z.

(** The calls that count as failures. *)
Definition countedFail (c : Call) : Prop :=
  match c with
  | CallFail _ category _ _ _ => countedCategory category
  | _ => False
  end.

Definition failureStored (filePath : FilePath) (category message : string)
    (r : DetectionResults) : Prop :=
  exists rd d,
    findResultDetails filePath (Results r) = Some rd /\
    In d (FailureList rd) /\ Category d = category /\ Message d = message.

(** [yields r m P]: started on any world whose run state is [r], [m] returns
    normally, with a value satisfying [P]; it leaves the run state as it
    found it and only appends to standard output. *)
Definition yields {A : Type} (r : DetectionResults) (m : M A) (P : A -> Prop) : Prop :=
  forall w, results w = r ->
    exists a evs, m w = Ok (a, mkWorld r (stdout w ++ evs)) /\ P a.

(** [returns m w a]: on the world [w], [m] returns [a] and changes nothing,
    neither the run state nor standard output. *)
Definition returns {A : Type} (m : M A) (w : World) (a : A) : Prop :=
  m w = Ok (a, w).

(** The message as it reaches the table. *)
Definition renderedMessage (message : string) : string :=
  if (150 <? String.length message)%nat
  then (substring 0 75 message ++ newline ++ substring 75 72 message ++ "...")%string
  else message.

Definition rowOf (filePath : FilePath) (d : Details) : list string :=
  [filePath; renderedMessage (Message d); Severity_String (Severity_ d)].

Definition hasFailuresOrIgnores (rd : ResultsDetails) : bool :=
  ((0 <? List.length (FailureList rd))%nat || (0 <? List.length (IgnoreList rd))%nat)%bool.

Definition hasWarningEntries (rd : ResultsDetails) : bool :=
  (0 <? List.length (WarningList rd))%nat.

(** The rows [ReportFileFailures] gives for the ledger it finds under the
    name of [rd]. *)
Definition failureRows (r : DetectionResults) (rd : ResultsDetails) : list (list string) :=
  match findResultDetails (Filename rd) (Results r) with
  | Some found => map (rowOf (Filename rd)) (FailureList found)
  | None => []
  end.

Definition warningRows (r : DetectionResults) (rd : ResultsDetails) : list (list string) :=
  match findResultDetails (Filename rd) (Results r) with
  | Some found => map (rowOf (Filename rd)) (WarningList found)
  | None => []
  end.

(** How one finding must appear as a table row. *)
Definition rendersAs (filePath : FilePath) (d : Details) (row : list string) : Prop :=
  exists rendered,
    row = [filePath; rendered; Severity_String (Severity_ d)] /\
    (String.length (Message d) <= 150 -> rendered = Message d) /\
    (150 < String.length (Message d) ->
     rendered = (substring 0 75 (Message d) ++ newline
                 ++ substring 75 72 (Message d) ++ "...")%string).

(** One failure for "a.pem" and one ignore for "b.txt". *)
Definition endToEndCalls (commits : list string) (severity : Severity) : list Call :=
  [CallFail "a.pem" "filecontent" "secret key" commits severity;
   CallIgnore "b.txt" "filesize"].

(** [Report] prints the banner and a table of [rows], then offers ignore
    entries for exactly the paths [filePaths], and returns the empty string. *)
Definition reportsAndSuggests
    (CollectiveSHA256Hash : list string -> string) (GOOS : string)
    (yaml_Marshal_config : IgnoreConfig -> string * option string)
    (yaml_Marshal_rc : list IgnoreConfig -> string)
    (git_add_talismanrc : string * option string)
    (promptContext : PromptContext) (w : World)
    (rows : list (list string)) (filePaths : list string) : Prop :=
  Report CollectiveSHA256Hash GOOS yaml_Marshal_config yaml_Marshal_rc
    git_add_talismanrc promptContext w =
  (emit (Print reportBanner) ;;;
   emit (RenderTable ["File"; "Errors"; "Severity"] rows) ;;;
   emit (Print newline) ;;;
   offerEntries GOOS yaml_Marshal_config yaml_Marshal_rc git_add_talismanrc
     (mode (results w))
     (buildEntries CollectiveSHA256Hash (mode (results w)) filePaths)
     promptContext ;;;
   ret "") w.

(** Collaborators for running the workflow on an example: a printing context
    that is not interactive, and a rendering of the suggested entries that
    lists their file names. *)
Definition exampleHash (paths : list string) : string := String.concat "," paths.
Definition exampleMarshalConfig (config : IgnoreConfig) : string * option string :=
  (GetFileName config, None).
Definition exampleMarshalRC (entries : list IgnoreConfig) : string :=
  String.concat "," (map GetFileName entries).
Definition exampleGitAdd : string * option string := ("", None).
Definition examplePrompt : PromptContext := mkPromptContext false (fun _ => true).

Fixpoint replicate (n : nat) (c : ascii) : string :=
  match n with
  | O => EmptyString
  | S n' => String c (replicate n' c)
  end.

(** A message of 200 bytes. *)
Definition exampleLongMessage : string := replicate 200 "x"%char.

Definition exampleLedger : ResultsDetails :=
  mkResultsDetails "a.pem"
    [mkDetails "filecontent" exampleLongMessage ["c1"] High]
    [mkDetails "filecontent" "short" [] Low]
    [].

Definition exampleCalls : list Call :=
  [CallFail "a.pem" "filecontent" exampleLongMessage ["c1"] High;
   CallWarn "a.pem" "filecontent" "short" [] Low;
   CallFail "notes.txt" "custom" "odd" [] Medium].

Definition exampleMode : Mode := 1%Z.

Definition exampleWorld : World :=
  mkWorld (run exampleCalls (NewDetectionResults exampleMode)) [].

(** Characters, as opposed to bytes: in the UTF-8 encoding Go strings
    carry, every character is one byte that is not a continuation byte
    (a byte of the form 10xxxxxx), followed by continuation bytes. *)
Definition isContinuationByte (c : ascii) : bool :=
  ((128 <=? nat_of_ascii c)%nat && (nat_of_ascii c <? 192)%nat)%bool.

Fixpoint characterCount (s : string) : nat :=
  match s with
  | EmptyString => 0
  | String c rest => (if isContinuationByte c then 0 else 1) + characterCount rest
  end.

Fixpoint repeatString (n : nat) (s : string) : string :=
  match n with
  | O => ""
  | S n' => s ++ repeatString n' s
  end.

(** The letter e with an acute accent: the two bytes 0xC3 0xA9. *)
Definition eAcute : string :=
  String (ascii_of_nat 195) (String (ascii_of_nat 169) EmptyString).

(** A message of 76 characters in 152 bytes, and a run that stores it. *)
Definition exampleAccentedMessage : string := repeatString 76 eAcute.

Definition exampleAccentedWorld : World :=
  mkWorld (Fail (NewDetectionResults exampleMode) "a.pem" "filecontent"
             exampleAccentedMessage [] Low) [].

(** A run state whose warning counter is below zero. *)
Definition exampleNegativeWorld : World :=
  mkWorld (mkDetectionResults exampleMode
             (mkResultsSummary (mkFailureTypes 0 0 0 (-1) 0)) []) [].

(** ** Vocabulary of the further properties *)

(** What identifies a finding and how serious it is: all of it but the
    commits. *)
Definition outline (d : Details) : string * string * Severity :=
  (Category d, Message d, Severity_ d).

Definition callPath (c : Call) : FilePath :=
  match c with
  | CallFail p _ _ _ _ => p
  | CallWarn p _ _ _ _ => p
  | CallIgnore p _ => p
  end.

Definition isWarn (c : Call) : bool :=
  match c with CallWarn _ _ _ _ _ => true | _ => false end.

Definition isIgnore (c : Call) : bool :=
  match c with CallIgnore _ _ => true | _ => false end.

Definition isFailWith (category : string) (c : Call) : bool :=
  match c with
  | CallFail _ category' _ _ _ => String.eqb category' category
  | _ => false
  end.

Definition countCalls (f : Call -> bool) (calls : list Call) : Z :=
  Z.of_nat (List.length (filter f calls)).

Definition isFail (c : Call) : bool :=
  match c with CallFail _ _ _ _ _ => true | _ => false end.

(** The paths of a sequence of calls in the order of their first mention,
    leaving out those already [seen]. *)
Fixpoint firstMentions (seen : list FilePath) (calls : list Call) : list FilePath :=
  match calls with
  | [] => []
  | c :: rest =>
      if existsb (String.eqb (callPath c)) seen
      then firstMentions seen rest
      else callPath c :: firstMentions (callPath c :: seen) rest
  end.

(** [prints m w a evs]: on the world [w], [m] returns [a], leaves the run
    state alone and appends exactly the events [evs] to standard output. *)
Definition prints {A : Type} (m : M A) (w : World) (a : A) (evs : list Event) : Prop :=
  m w = Ok (a, mkWorld (results w) (stdout w ++ evs)).

(** The rows of all warnings, and of all failures, ledger by ledger. *)
Definition warningTable (r : DetectionResults) : list (list string) :=
  flat_map (fun rd => map (rowOf (Filename rd)) (WarningList rd)) (Results r).

Definition failureTable (r : DetectionResults) : list (list string) :=
  flat_map (fun rd => map (rowOf (Filename rd)) (FailureList rd)) (Results r).

(** The question [confirm] asks about an entry, and the answer the prompt
    gives to it. *)
Definition confirmationPrompt (config : IgnoreConfig) : string :=
  "Do you want to add " ++ GetFileName config ++ " with above checksum in talismanrc ?".

Definition accepted (promptContext : PromptContext) (config : IgnoreConfig) : bool :=
  Prompt_Confirm promptContext (confirmationPrompt config).

(** What [confirm] does for one entry. *)
Definition confirmEvents (yaml_Marshal_config : IgnoreConfig -> string * option string)
    (promptContext : PromptContext) (config : IgnoreConfig) : list Event :=
  match snd (yaml_Marshal_config config) with
  | Some e => [LogError ("error marshalling file ignore config: " ++ e)]
  | None => []
  end
  ++ [Print newline;
      Print (fst (yaml_Marshal_config config) ++ newline);
      Confirm (confirmationPrompt config) (accepted promptContext config)].

(** What [suggestTalismanRC] does with the entries it has built: asking
    about each and persisting the confirmed ones in an interactive prompt
    context on a host other than Windows, printing the suggestion
    otherwise. *)
Definition suggestionEvents (GOOS : string)
    (yaml_Marshal_config : IgnoreConfig -> string * option string)
    (yaml_Marshal_rc : list IgnoreConfig -> string)
    (git_add_talismanrc : string * option string)
    (m : Mode) (entries : list IgnoreConfig) (promptContext : PromptContext)
    : list Event :=
  if (Interactive promptContext && negb (String.eqb GOOS "windows"))%bool
  then
    ((if (List.length entries =? 0)%nat
      then []
      else [Print ("==== Interactively adding to talismanrc ====" ++ newline)])
     ++ flat_map (confirmEvents yaml_Marshal_config promptContext) entries)
    ++ [AddIgnores m (filter (accepted promptContext) entries);
        ExecCommand ["git"; "add"; ".talismanrc"]]
    ++ match snd git_add_talismanrc with
       | Some _ =>
           [LogError ("Error appending to talismanrc "
                      ++ format_v_bytes (fst git_add_talismanrc))]
       | None => []
       end
  else [Print (suggestString ++ newline); Print (yaml_Marshal_rc entries ++ newline)].


(** An interactive prompt that says yes to "a.pem" only. *)
Definition exampleInteractivePrompt : PromptContext :=
  mkPromptContext true
    (String.eqb "Do you want to add a.pem with above checksum in talismanrc ?").

(** A run with a stored failure of an uncounted category and an ignore. *)
Definition exampleQuietWorld : World :=
  mkWorld (run [CallFail "notes.txt" "custom" "odd" [] Medium;
                CallIgnore "b.txt" "filesize"]
             (NewDetectionResults exampleMode)) [].

(** * Properties *)

(** ** Strings and integers *)

Lemma strings_Compare_zero (a b : string) :
  (strings_Compare a b =? 0)%Z = String.eqb a b.
Proof.
  unfold strings_Compare.
  destruct (String.eqb_spec a b) as [->|Hne].
  - pose proof (String.compare_antisym b b) as E.
    destruct (String.compare b b); simpl in E; try discriminate; reflexivity.
  - destruct (String.compare a b) eqn:E; try reflexivity.
    apply String.compare_eq_iff in E. contradiction.
Qed.

Lemma sameCategoryAndMessage_true (category message : string) (d : Details) :
  sameCategoryAndMessage category message d = true <->
  Category d = category /\ Message d = message.
Proof.
  unfold sameCategoryAndMessage.
  rewrite !strings_Compare_zero, andb_true_iff, !String.eqb_eq. tauto.
Qed.

Lemma sameCategoryAndMessage_false (category message : string) (d : Details) :
  sameCategoryAndMessage category message d = false <->
  (Category d, Message d) <> (category, message).
Proof.
  rewrite <- not_true_iff_false, sameCategoryAndMessage_true.
  split; intros H E.
  - injection E as E1 E2. now apply H.
  - destruct E as [E1 E2]. apply H. now rewrite E1, E2.
Qed.

Lemma sameCategory_true (category : string) (d : Details) :
  sameCategory category d = true <-> Category d = category.
Proof.
  unfold sameCategory. now rewrite strings_Compare_zero, String.eqb_eq.
Qed.

Lemma wrap_int_small (z : Z) :
  (min_int <= z <= max_int)%Z -> wrap_int z = z.
Proof.
  unfold wrap_int, min_int, max_int, int_bits. intros H.
  rewrite Z.mod_small; lia.
Qed.

Lemma incr_small (z : Z) :
  (min_int <= z < max_int)%Z -> incr z = (z + 1)%Z.
Proof.
  intros H. unfold incr. apply wrap_int_small. lia.
Qed.



Example format_v_of_two_bytes : format_v_bytes "hi" = "[104 105]".
Proof. reflexivity. Qed.

(** ** The loops as maps *)

Lemma mergeCommits_fst (category message : string) (commits : list string)
    (details : list Details) (present : bool) :
  fst (mergeCommits category message commits details present) =
  map (fun d => if sameCategoryAndMessage category message d
                then set_Commits d (Commits d ++ commits) else d) details.
Proof.
  revert present. induction details as [|d rest IH]; intros present; simpl.
  - reflexivity.
  - destruct (sameCategoryAndMessage category message d).
    + specialize (IH true).
      destruct (mergeCommits category message commits rest true); simpl in *.
      now rewrite IH.
    + specialize (IH present).
      destruct (mergeCommits category message commits rest present); simpl in *.
      now rewrite IH.
Qed.

Lemma mergeCommits_snd (category message : string) (commits : list string)
    (details : list Details) (present : bool) :
  snd (mergeCommits category message commits details present) =
  (present || existsb (sameCategoryAndMessage category message) details)%bool.
Proof.
  revert present. induction details as [|d rest IH]; intros present; simpl.
  - now rewrite orb_false_r.
  - destruct (sameCategoryAndMessage category message d).
    + specialize (IH true).
      destruct (mergeCommits category message commits rest true); simpl in *.
      rewrite IH. now rewrite orb_true_r.
    + specialize (IH present).
      destruct (mergeCommits category message commits rest present); simpl in *.
      now rewrite IH.
Qed.

Lemma recordDetails_eq (category message : string) (commits : list string)
    (severity : Severity) (details : list Details) :
  recordDetails category message commits severity details =
  let merged := map (fun d => if sameCategoryAndMessage category message d
                              then set_Commits d (Commits d ++ commits) else d) details in
  if existsb (sameCategoryAndMessage category message) details
  then merged
  else merged ++ [mkDetails category message commits severity].
Proof.
  unfold recordDetails.
  pose proof (mergeCommits_fst category message commits details false) as Hf.
  pose proof (mergeCommits_snd category message commits details false) as Hs.
  destruct (mergeCommits category message commits details false) as [l p].
  simpl in *. subst.
  now destruct (existsb (sameCategoryAndMessage category message) details).
Qed.

Lemma categoryPresent_eq (category : string) (details : list Details) (present : bool) :
  categoryPresent category details present =
  (present || existsb (sameCategory category) details)%bool.
Proof.
  revert present. induction details as [|d rest IH]; intros present; simpl.
  - now rewrite orb_false_r.
  - destruct (sameCategory category d); rewrite IH; simpl.
    + now rewrite orb_true_r.
    + reflexivity.
Qed.

Lemma recordIgnore_eq (category : string) (details : list Details) :
  recordIgnore category details =
  if existsb (sameCategory category) details
  then details
  else details ++ [mkDetails category "" [] Low].
Proof.
  unfold recordIgnore. rewrite categoryPresent_eq. simpl.
  now destruct (existsb (sameCategory category) details).
Qed.

Lemma forEachResult_fst (filePath : FilePath) (body : ResultsDetails -> ResultsDetails)
    (l : list ResultsDetails) (present : bool) :
  fst (forEachResult filePath body l present) =
  map (fun rd => if String.eqb (Filename rd) filePath then body rd else rd) l.
Proof.
  revert present. induction l as [|rd rest IH]; intros present; simpl.
  - reflexivity.
  - destruct (String.eqb (Filename rd) filePath).
    + specialize (IH true).
      destruct (forEachResult filePath body rest true); simpl in *. now rewrite IH.
    + specialize (IH present).
      destruct (forEachResult filePath body rest present); simpl in *. now rewrite IH.
Qed.

Lemma forEachResult_snd (filePath : FilePath) (body : ResultsDetails -> ResultsDetails)
    (l : list ResultsDetails) (present : bool) :
  snd (forEachResult filePath body l present) =
  (present || existsb (fun rd => String.eqb (Filename rd) filePath) l)%bool.
Proof.
  revert present. induction l as [|rd rest IH]; intros present; simpl.
  - now rewrite orb_false_r.
  - destruct (String.eqb (Filename rd) filePath).
    + specialize (IH true).
      destruct (forEachResult filePath body rest true); simpl in *.
      rewrite IH. now rewrite orb_true_r.
    + specialize (IH present).
      destruct (forEachResult filePath body rest present); simpl in *. now rewrite IH.
Qed.

Lemma Fail_Results (r : DetectionResults) (filePath : FilePath) (category message : string)
    (commits : list string) (severity : Severity) :
  Results (Fail r filePath category message commits severity) =
  recordIn filePath (failBody category message commits severity)
    (mkResultsDetails filePath [mkDetails category message commits severity] [] [])
    (Results r).
Proof.
  unfold Fail, recordIn.
  pose proof (forEachResult_fst filePath (failBody category message commits severity)
                (Results r) false) as Hf.
  pose proof (forEachResult_snd filePath (failBody category message commits severity)
                (Results r) false) as Hs.
  unfold failBody in *.
  destruct (forEachResult filePath _ (Results r) false) as [l p].
  simpl in Hf, Hs. subst l p.
  destruct (existsb _ (Results r)); simpl;
    unfold updateResultsSummary;
    repeat (match goal with |- context [if ?b then _ else _] => destruct b end);
    reflexivity.
Qed.

Lemma Warn_Results (r : DetectionResults) (filePath : FilePath) (category message : string)
    (commits : list string) (severity : Severity) :
  Results (Warn r filePath category message commits severity) =
  recordIn filePath (warnBody category message commits severity)
    (mkResultsDetails filePath [] [mkDetails category message commits severity] [])
    (Results r).
Proof.
  unfold Warn, recordIn.
  pose proof (forEachResult_fst filePath (warnBody category message commits severity)
                (Results r) false) as Hf.
  pose proof (forEachResult_snd filePath (warnBody category message commits severity)
                (Results r) false) as Hs.
  unfold warnBody in *.
  destruct (forEachResult filePath _ (Results r) false) as [l p].
  simpl in Hf, Hs. subst l p.
  destruct (existsb _ (Results r)); reflexivity.
Qed.

Lemma Ignore_Results (r : DetectionResults) (filePath : FilePath) (category : string) :
  Results (Ignore r filePath category) =
  recordIn filePath (ignoreBody category)
    (mkResultsDetails filePath [] [] [mkDetails category "" [] Low])
    (Results r).
Proof.
  unfold Ignore, recordIn.
  pose proof (forEachResult_fst filePath (ignoreBody category) (Results r) false) as Hf.
  pose proof (forEachResult_snd filePath (ignoreBody category) (Results r) false) as Hs.
  unfold ignoreBody in *.
  destruct (forEachResult filePath _ (Results r) false) as [l p].
  simpl in Hf, Hs. subst l p.
  destruct (existsb _ (Results r)); reflexivity.
Qed.

(** ** Well-formed ledgers *)

Lemma NoDup_snoc {A : Type} (l : list A) (x : A) :
  NoDup l -> ~ In x l -> NoDup (l ++ [x]).
Proof.
  intros Hl Hx. induction Hl as [|y l Hy Hl IH]; simpl.
  - constructor; [intros []|constructor].
  - constructor.
    + rewrite in_app_iff. simpl. intros [H|[H|[]]].
      * contradiction.
      * subst. apply Hx. now left.
    + apply IH. intros H. apply Hx. now right.
Qed.

Lemma merge_keys (category message : string) (commits : list string) (l : list Details) :
  map key (map (fun d => if sameCategoryAndMessage category message d
                         then set_Commits d (Commits d ++ commits) else d) l) =
  map key l.
Proof.
  rewrite map_map. apply map_ext. intros d.
  now destruct (sameCategoryAndMessage category message d).
Qed.

Lemma existsb_same_false (category message : string) (l : list Details) :
  existsb (sameCategoryAndMessage category message) l = false ->
  ~ In (category, message) (map key l).
Proof.
  intros H Hin. apply in_map_iff in Hin. destruct Hin as [d [Hk Hd]].
  assert (E : existsb (sameCategoryAndMessage category message) l = true).
  { apply existsb_exists. exists d. split; [assumption|].
    apply sameCategoryAndMessage_true. unfold key in Hk. now inversion Hk. }
  congruence.
Qed.

Lemma existsb_sameCategory_false (category : string) (l : list Details) :
  existsb (sameCategory category) l = false -> ~ In category (map Category l).
Proof.
  intros H Hin. apply in_map_iff in Hin. destruct Hin as [d [Hk Hd]].
  assert (E : existsb (sameCategory category) l = true).
  { apply existsb_exists. exists d. split; [assumption|].
    now apply sameCategory_true. }
  congruence.
Qed.

Lemma existsb_Filename_false (filePath : FilePath) (l : list ResultsDetails) :
  existsb (fun rd => String.eqb (Filename rd) filePath) l = false ->
  ~ In filePath (map Filename l).
Proof.
  intros H Hin. apply in_map_iff in Hin. destruct Hin as [rd [Hk Hd]].
  assert (E : existsb (fun rd => String.eqb (Filename rd) filePath) l = true).
  { apply existsb_exists. exists rd. split; [assumption|]. now apply String.eqb_eq. }
  congruence.
Qed.

Lemma recordDetails_keys (category message : string) (commits : list string)
    (severity : Severity) (l : list Details) :
  NoDup (map key l) ->
  NoDup (map key (recordDetails category message commits severity l)).
Proof.
  intros H. rewrite recordDetails_eq. simpl.
  destruct (existsb (sameCategoryAndMessage category message) l) eqn:E.
  - now rewrite merge_keys.
  - rewrite map_app, merge_keys. simpl.
    apply NoDup_snoc; [assumption|]. now apply existsb_same_false.
Qed.

Lemma recordIgnore_categories (category : string) (l : list Details) :
  NoDup (map Category l) -> NoDup (map Category (recordIgnore category l)).
Proof.
  intros H. rewrite recordIgnore_eq.
  destruct (existsb (sameCategory category) l) eqn:E.
  - assumption.
  - rewrite map_app. simpl.
    apply NoDup_snoc; [assumption|]. now apply existsb_sameCategory_false.
Qed.


Section RecordIn.

Variable filePath : FilePath.
Variable body : ResultsDetails -> ResultsDetails.
Variable fresh : ResultsDetails.
Hypothesis body_Filename : forall rd, Filename (body rd) = Filename rd.
Hypothesis fresh_Filename : Filename fresh = filePath.

Lemma recordIn_Filenames (l : list ResultsDetails) :
  map Filename (recordIn filePath body fresh l) =
  if existsb (fun rd => String.eqb (Filename rd) filePath) l
  then map Filename l
  else map Filename l ++ [filePath].
Proof.
  unfold recordIn.
  assert (E : map Filename
                (map (fun rd => if String.eqb (Filename rd) filePath then body rd else rd) l)
              = map Filename l).
  { rewrite map_map. apply map_ext. intros rd.
    destruct (String.eqb (Filename rd) filePath); [apply body_Filename|reflexivity]. }
  destruct (existsb _ l).
  - exact E.
  - rewrite map_app, E. simpl. now rewrite fresh_Filename.
Qed.

Lemma recordIn_NoDup (l : list ResultsDetails) :
  NoDup (map Filename l) -> NoDup (map Filename (recordIn filePath body fresh l)).
Proof.
  intros H. rewrite recordIn_Filenames.
  destruct (existsb _ l) eqn:E; [assumption|].
  apply NoDup_snoc; [assumption|]. now apply existsb_Filename_false.
Qed.

Lemma recordIn_Forall (P : ResultsDetails -> Prop) (l : list ResultsDetails) :
  (forall rd, P rd -> P (body rd)) -> P fresh ->
  Forall P l -> Forall P (recordIn filePath body fresh l).
Proof.
  intros Hbody Hfresh Hl. unfold recordIn.
  assert (E : Forall P
                (map (fun rd => if String.eqb (Filename rd) filePath then body rd else rd) l)).
  { apply Forall_map. eapply Forall_impl; [|exact Hl]. intros rd Hrd.
    destruct (String.eqb (Filename rd) filePath); auto. }
  destruct (existsb _ l); [assumption|].
  apply Forall_app. split; [assumption|]. now constructor.
Qed.

End RecordIn.

Lemma NoDup_single {A : Type} (x : A) : NoDup [x].
Proof. constructor; [intros []|constructor]. Qed.

Lemma perform_Results (r : DetectionResults) (c : Call) :
  Results (perform r c) =
  match c with
  | CallFail p cat m cs s =>
      recordIn p (failBody cat m cs s) (mkResultsDetails p [mkDetails cat m cs s] [] [])
               (Results r)
  | CallWarn p cat m cs s =>
      recordIn p (warnBody cat m cs s) (mkResultsDetails p [] [mkDetails cat m cs s] [])
               (Results r)
  | CallIgnore p cat =>
      recordIn p (ignoreBody cat) (mkResultsDetails p [] [] [mkDetails cat "" [] Low])
               (Results r)
  end.
Proof.
  destruct c; simpl.
  - apply Fail_Results.
  - apply Warn_Results.
  - apply Ignore_Results.
Qed.

Lemma perform_wellFormed (r : DetectionResults) (c : Call) :
  wellFormed r -> wellFormed (perform r c).
Proof.
  intros [Hn Hf]. unfold wellFormed. rewrite perform_Results.
  destruct c as [p cat m cs s|p cat m cs s|p cat]; split;
    try (apply recordIn_NoDup; [reflexivity|reflexivity|assumption]);
    (apply recordIn_Forall; [| |assumption]).
  - intros rd (H1 & H2 & H3). repeat split; simpl; try assumption.
    now apply recordDetails_keys.
  - repeat split; simpl; try apply NoDup_single; constructor.
  - intros rd (H1 & H2 & H3). repeat split; simpl; try assumption.
    now apply recordDetails_keys.
  - repeat split; simpl; try apply NoDup_single; constructor.
  - intros rd (H1 & H2 & H3). repeat split; simpl; try assumption.
    now apply recordIgnore_categories.
  - repeat split; simpl; try apply NoDup_single; constructor.
Qed.


Lemma run_invariant (P : DetectionResults -> Prop) :
  (forall r c, P r -> P (perform r c)) ->
  forall calls r, P r -> P (run calls r).
Proof.
  intros Hstep calls. unfold run.
  induction calls as [|c calls IH]; intros r Hr; simpl.
  - assumption.
  - apply IH. now apply Hstep.
Qed.

Lemma New_wellFormed (m : Mode) : wellFormed (NewDetectionResults m).
Proof. split; simpl; constructor. Qed.

Lemma run_wellFormed (calls : list Call) (r : DetectionResults) :
  wellFormed r -> wellFormed (run calls r).
Proof. apply (run_invariant wellFormed). apply perform_wellFormed. Qed.


(** ** Counters *)

Lemma Fail_Types (r : DetectionResults) (filePath : FilePath) (category message : string)
    (commits : list string) (severity : Severity) :
  Types (Summary (Fail r filePath category message commits severity)) =
  Types (Summary (updateResultsSummary r category)).
Proof.
  unfold Fail.
  destruct (forEachResult filePath _ (Results r) false) as [l p].
  destruct (negb p); unfold updateResultsSummary; simpl;
    repeat (match goal with |- context [if ?b then _ else _] => destruct b end);
    reflexivity.
Qed.

Lemma Warn_Types (r : DetectionResults) (filePath : FilePath) (category message : string)
    (commits : list string) (severity : Severity) :
  Types (Summary (Warn r filePath category message commits severity)) =
  Types (Summary (incrWarnings r)).
Proof.
  unfold Warn.
  destruct (forEachResult filePath _ (Results r) false) as [l p].
  destruct (negb p); reflexivity.
Qed.

Lemma Ignore_Types (r : DetectionResults) (filePath : FilePath) (category : string) :
  Types (Summary (Ignore r filePath category)) = Types (Summary (incrIgnores r)).
Proof.
  unfold Ignore.
  destruct (forEachResult filePath _ (Results r) false) as [l p].
  destruct (negb p); reflexivity.
Qed.

Lemma HasFailures_true (r : DetectionResults) :
  HasFailures r = true <->
  (Filesize (Types (Summary r)) > 0 \/ Filename_ (Types (Summary r)) > 0
   \/ Filecontent (Types (Summary r)) > 0)%Z.
Proof.
  unfold HasFailures. rewrite !orb_true_iff, !Z.gtb_ltb, !Z.ltb_lt. lia.
Qed.

Lemma countedCategory_dec (category : string) :
  {countedCategory category} + {~ countedCategory category}.
Proof.
  unfold countedCategory.
  destruct (string_dec category "filecontent"); [left; tauto|].
  destruct (string_dec category "filesize"); [left; tauto|].
  destruct (string_dec category "filename"); [left; tauto|].
  right. tauto.
Qed.

Lemma updateResultsSummary_uncounted (r : DetectionResults) (category : string) :
  ~ countedCategory category -> updateResultsSummary r category = r.
Proof.
  intros H. unfold updateResultsSummary, countedCategory in *.
  destruct (String.eqb_spec category "filecontent"); [tauto|].
  destruct (String.eqb_spec category "filename"); [tauto|].
  destruct (String.eqb_spec category "filesize"); [tauto|].
  reflexivity.
Qed.

Lemma updateResultsSummary_counted (k : Z) (r : DetectionResults) (category : string) :
  countedCategory category -> failureCountersWithin k r -> (k < max_int)%Z ->
  failureCountersWithin (k + 1) (updateResultsSummary r category) /\
  HasFailures (updateResultsSummary r category) = true.
Proof.
  intros Hc (H1 & H2 & H3) Hk.
  assert (Hmin : (min_int <= 0)%Z) by (unfold min_int, int_bits; lia).
  rewrite HasFailures_true. unfold failureCountersWithin, updateResultsSummary.
  destruct (String.eqb_spec category "filecontent").
  { simpl. rewrite incr_small by lia. lia. }
  destruct (String.eqb_spec category "filename").
  { simpl. rewrite incr_small by lia. lia. }
  destruct (String.eqb_spec category "filesize").
  { simpl. rewrite incr_small by lia. lia. }
  unfold countedCategory in Hc. tauto.
Qed.

Lemma perform_failureCounters (k : Z) (r : DetectionResults) (c : Call) :
  failureCountersWithin k r -> (k < max_int)%Z ->
  failureCountersWithin (k + 1) (perform r c) /\
  (HasFailures (perform r c) = true <-> HasFailures r = true \/ countedFail c).
Proof.
  intros Hb Hk.
  assert (Hweak : failureCountersWithin (k + 1) r).
  { unfold failureCountersWithin in *. lia. }
  destruct c as [p cat m cs s|p cat m cs s|p cat]; simpl.
  - unfold failureCountersWithin. rewrite HasFailures_true, Fail_Types.
    destruct (countedCategory_dec cat) as [Hc|Hc].
    + destruct (updateResultsSummary_counted k r cat Hc Hb Hk) as [Hb' Hf].
      apply HasFailures_true in Hf. split; [exact Hb'|]. tauto.
    + rewrite (updateResultsSummary_uncounted r cat Hc).
      split; [exact Hweak|]. rewrite HasFailures_true. tauto.
  - unfold failureCountersWithin. rewrite !HasFailures_true, Warn_Types. simpl.
    split; [exact Hweak|]. tauto.
  - unfold failureCountersWithin. rewrite !HasFailures_true, Ignore_Types. simpl.
    split; [exact Hweak|]. tauto.
Qed.

Lemma run_failureCounters (calls : list Call) :
  forall (k : Z) (r : DetectionResults),
    failureCountersWithin k r ->
    (k + Z.of_nat (List.length calls) <= max_int)%Z ->
    failureCountersWithin (k + Z.of_nat (List.length calls)) (run calls r) /\
    (HasFailures (run calls r) = true <->
     HasFailures r = true \/ exists c, In c calls /\ countedFail c).
Proof.
  induction calls as [|c calls IH]; intros k r Hb Hk.
  - simpl. rewrite Z.add_0_r. split; [assumption|].
    split; [tauto|]. intros [H|[c [[] _]]]. assumption.
  - change (run (c :: calls) r) with (run calls (perform r c)).
    rewrite length_cons, Nat2Z.inj_succ in *.
    destruct (perform_failureCounters k r c Hb) as [Hb' Hf]; [lia|].
    destruct (IH (k + 1)%Z (perform r c) Hb') as [Hb'' Hf']; [lia|].
    split.
    + replace (k + Z.succ (Z.of_nat (List.length calls)))%Z
        with (k + 1 + Z.of_nat (List.length calls))%Z by lia.
      exact Hb''.
    + rewrite Hf', Hf. split.
      * intros [[H|H]|[c' [Hin Hc']]].
        -- now left.
        -- right. exists c. split; [now left|assumption].
        -- right. exists c'. split; [now right|assumption].
      * intros [H|[c' [[->|Hin] Hc']]].
        -- left. now left.
        -- left. now right.
        -- right. exists c'. split; assumption.
Qed.

Lemma perform_tally (k : Z) (r : DetectionResults) (c : Call) :
  tallyWithin k r -> (k < max_int)%Z -> tallyWithin (k + 1) (perform r c).
Proof.
  intros [Hw Hi] Hk.
  assert (Hmin : (min_int <= 0)%Z) by (unfold min_int, int_bits; lia).
  unfold tallyWithin.
  destruct c as [p cat m cs s|p cat m cs s|p cat]; simpl.
  - rewrite Fail_Types. unfold updateResultsSummary.
    repeat (match goal with |- context [if ?b then _ else _] => destruct b end);
      simpl; lia.
  - rewrite Warn_Types. simpl. rewrite incr_small by lia. lia.
  - rewrite Ignore_Types. simpl. rewrite incr_small by lia. lia.
Qed.


(** ** Lookups *)

Lemma findResultDetails_map (fileName : FilePath) (f : ResultsDetails -> ResultsDetails)
    (l : list ResultsDetails) :
  (forall rd, Filename (f rd) = Filename rd) ->
  findResultDetails fileName (map f l) = option_map f (findResultDetails fileName l).
Proof.
  intros Hf. induction l as [|rd rest IH]; simpl.
  - reflexivity.
  - rewrite Hf. destruct (String.eqb (Filename rd) fileName); [reflexivity|exact IH].
Qed.

Lemma findResultDetails_app (fileName : FilePath) (l l' : list ResultsDetails) :
  findResultDetails fileName (l ++ l') =
  match findResultDetails fileName l with
  | Some rd => Some rd
  | None => findResultDetails fileName l'
  end.
Proof.
  induction l as [|rd rest IH]; simpl.
  - reflexivity.
  - destruct (String.eqb (Filename rd) fileName); [reflexivity|exact IH].
Qed.

Lemma findResultDetails_existsb (fileName : FilePath) (l : list ResultsDetails) :
  existsb (fun rd => String.eqb (Filename rd) fileName) l =
  match findResultDetails fileName l with Some _ => true | None => false end.
Proof.
  induction l as [|rd rest IH]; simpl.
  - reflexivity.
  - destruct (String.eqb (Filename rd) fileName); [reflexivity|exact IH].
Qed.

Lemma findResultDetails_Some (fileName : FilePath) (l : list ResultsDetails)
    (rd : ResultsDetails) :
  findResultDetails fileName l = Some rd -> In rd l /\ Filename rd = fileName.
Proof.
  induction l as [|x rest IH]; simpl; [discriminate|].
  destruct (String.eqb_spec (Filename x) fileName) as [E|E].
  - intros [= <-]. split; [now left|assumption].
  - intros H. destruct (IH H) as [Hin Hf]. split; [now right|assumption].
Qed.

Lemma findResultDetails_None (fileName : FilePath) (l : list ResultsDetails) :
  findResultDetails fileName l = None <->
  (forall rd, In rd l -> Filename rd <> fileName).
Proof.
  induction l as [|x rest IH]; simpl.
  - split; [intros _ rd []|reflexivity].
  - destruct (String.eqb_spec (Filename x) fileName) as [E|E].
    + split; [discriminate|]. intros H. exfalso. apply (H x); [now left|assumption].
    + rewrite IH. split.
      * intros H rd [<-|Hin]; [assumption|now apply H].
      * intros H rd Hin. apply H. now right.
Qed.

Lemma findResultDetails_absent (fileName : FilePath) (l : list ResultsDetails) :
  ~ In fileName (map Filename l) -> findResultDetails fileName l = None.
Proof.
  intros H. apply findResultDetails_None. intros rd Hin E. apply H.
  rewrite <- E. now apply in_map.
Qed.

Lemma findResultDetails_In (fileName : FilePath) (l : list ResultsDetails) :
  In fileName (map Filename l) -> exists rd, findResultDetails fileName l = Some rd.
Proof.
  intros Hin. destruct (findResultDetails fileName l) as [rd|] eqn:E.
  - now exists rd.
  - exfalso. apply in_map_iff in Hin. destruct Hin as [rd [Hf Hin]].
    rewrite findResultDetails_None in E. now apply (E rd).
Qed.

(** With distinct file names, the ledger found is the only one of that name. *)
Lemma findResultDetails_unique (l : list ResultsDetails) (rd : ResultsDetails) :
  NoDup (map Filename l) -> In rd l ->
  findResultDetails (Filename rd) l = Some rd.
Proof.
  induction l as [|x rest IH]; simpl; intros Hn Hin; [contradiction|].
  inversion Hn as [|? ? Hx Hrest]; subst.
  destruct Hin as [->|Hin].
  - now rewrite String.eqb_refl.
  - destruct (String.eqb_spec (Filename x) (Filename rd)) as [E|E].
    + exfalso. apply Hx. rewrite E. now apply in_map.
    + now apply IH.
Qed.

Lemma findResultDetails_recordIn (fileName filePath : FilePath)
    (body : ResultsDetails -> ResultsDetails) (fresh : ResultsDetails)
    (l : list ResultsDetails) :
  (forall rd, Filename (body rd) = Filename rd) ->
  findResultDetails fileName (recordIn filePath body fresh l) =
  match findResultDetails fileName l with
  | Some rd => Some (if String.eqb (Filename rd) filePath then body rd else rd)
  | None =>
      if existsb (fun rd => String.eqb (Filename rd) filePath) l
      then None
      else findResultDetails fileName [fresh]
  end.
Proof.
  intros Hb. unfold recordIn.
  assert (E : findResultDetails fileName
                (map (fun rd => if String.eqb (Filename rd) filePath then body rd else rd) l)
              = option_map (fun rd => if String.eqb (Filename rd) filePath then body rd else rd)
                  (findResultDetails fileName l)).
  { apply findResultDetails_map. intros rd.
    destruct (String.eqb (Filename rd) filePath); [apply Hb|reflexivity]. }
  destruct (existsb _ l).
  - rewrite E. now destruct (findResultDetails fileName l).
  - rewrite findResultDetails_app, E. now destruct (findResultDetails fileName l).
Qed.

(** ** A recorded failure stays recorded *)

Lemma recordDetails_keeps (category message : string) (commits : list string)
    (severity : Severity) (l : list Details) (k : string * string) :
  In k (map key l) ->
  In k (map key (recordDetails category message commits severity l)).
Proof.
  intros H. rewrite recordDetails_eq. simpl.
  destruct (existsb (sameCategoryAndMessage category message) l).
  - now rewrite merge_keys.
  - rewrite map_app, merge_keys, in_app_iff. now left.
Qed.

Lemma recordDetails_records (category message : string) (commits : list string)
    (severity : Severity) (l : list Details) :
  In (category, message) (map key (recordDetails category message commits severity l)).
Proof.
  rewrite recordDetails_eq. simpl.
  destruct (existsb (sameCategoryAndMessage category message) l) eqn:E.
  - rewrite merge_keys. apply existsb_exists in E. destruct E as [d [Hin Hd]].
    apply sameCategoryAndMessage_true in Hd. destruct Hd as [<- <-].
    now apply (in_map key).
  - rewrite map_app, in_app_iff. right. now left.
Qed.

Lemma failureStored_keys (filePath : FilePath) (category message : string)
    (r : DetectionResults) :
  failureStored filePath category message r <->
  exists rd, findResultDetails filePath (Results r) = Some rd /\
             In (category, message) (map key (FailureList rd)).
Proof.
  unfold failureStored. split.
  - intros (rd & d & Hf & Hin & <- & <-). exists rd. split; [assumption|].
    now apply (in_map key).
  - intros (rd & Hf & Hin). apply in_map_iff in Hin. destruct Hin as [d [Hk Hin]].
    exists rd, d. unfold key in Hk. inversion Hk. auto.
Qed.

Lemma perform_failureStored (filePath : FilePath) (category message : string)
    (r : DetectionResults) (c : Call) :
  failureStored filePath category message r ->
  failureStored filePath category message (perform r c).
Proof.
  rewrite !failureStored_keys. intros (rd & Hf & Hin).
  rewrite perform_Results.
  destruct c as [p cat m cs s|p cat m cs s|p cat];
    rewrite findResultDetails_recordIn by reflexivity; rewrite Hf;
    eexists; (split; [reflexivity|]);
    destruct (String.eqb (Filename rd) p); simpl; try assumption.
  now apply recordDetails_keeps.
Qed.

Lemma Fail_failureStored (r : DetectionResults) (filePath : FilePath)
    (category message : string) (commits : list string) (severity : Severity) :
  failureStored filePath category message
    (Fail r filePath category message commits severity).
Proof.
  rewrite failureStored_keys, Fail_Results.
  rewrite findResultDetails_recordIn by reflexivity.
  rewrite findResultDetails_existsb.
  destruct (findResultDetails filePath (Results r)) as [rd|] eqn:E.
  - apply findResultDetails_Some in E. destruct E as [_ E].
    apply String.eqb_eq in E. rewrite E.
    eexists. split; [reflexivity|]. simpl. apply recordDetails_records.
  - simpl. rewrite String.eqb_refl. eexists. split; [reflexivity|]. simpl. now left.
Qed.

Lemma run_failureStored (filePath : FilePath) (category message : string)
    (commits : list string) (severity : Severity) (calls : list Call) :
  forall r,
    In (CallFail filePath category message commits severity) calls ->
    failureStored filePath category message (run calls r).
Proof.
  induction calls as [|c calls IH]; intros r Hin; [contradiction|].
  change (run (c :: calls) r) with (run calls (perform r c)).
  destruct Hin as [->|Hin].
  - apply (run_invariant (failureStored filePath category message)).
    + intros r' c'. apply perform_failureStored.
    + simpl. apply Fail_failureStored.
  - now apply IH.
Qed.

(** ** Reasoning about the reporting monad *)

Lemma yields_ret {A : Type} (r : DetectionResults) (a : A) (P : A -> Prop) :
  P a -> yields r (ret a) P.
Proof.
  intros H [r' out] Hw. simpl in Hw. subst r'. exists a, []. simpl.
  rewrite app_nil_r. auto.
Qed.

Lemma yields_bind {A B : Type} (r : DetectionResults) (m : M A) (k : A -> M B)
    (P : A -> Prop) (Q : B -> Prop) :
  yields r m P -> (forall a, P a -> yields r (k a) Q) -> yields r (bind m k) Q.
Proof.
  intros Hm Hk w Hw. destruct (Hm w Hw) as (a & evs1 & E & Ha).
  destruct (Hk a Ha (mkWorld r (stdout w ++ evs1)) eq_refl) as (b & evs2 & E2 & Hb).
  exists b, (evs1 ++ evs2). unfold bind. rewrite E, E2. simpl.
  now rewrite app_assoc.
Qed.

Lemma yields_weaken {A : Type} (r : DetectionResults) (m : M A) (P Q : A -> Prop) :
  yields r m P -> (forall a, P a -> Q a) -> yields r m Q.
Proof.
  intros Hm HPQ w Hw. destruct (Hm w Hw) as (a & evs & E & Ha).
  exists a, evs. auto.
Qed.

Lemma yields_receiver (r : DetectionResults) :
  yields r receiver (fun r' => r' = r).
Proof.
  intros [r' out] Hw. simpl in Hw. subst r'. exists r, []. simpl.
  rewrite app_nil_r. auto.
Qed.

Lemma yields_emit (r : DetectionResults) (e : Event) :
  yields r (emit e) (fun _ => True).
Proof.
  intros [r' out] Hw. simpl in Hw. subst r'. exists tt, [e]. auto.
Qed.

Lemma returns_ret {A : Type} (w : World) (a : A) : returns (ret a) w a.
Proof. reflexivity. Qed.

Lemma returns_bind {A B : Type} (m : M A) (k : A -> M B) (w : World) (a : A) (b : B) :
  returns m w a -> returns (k a) w b -> returns (bind m k) w b.
Proof. unfold returns, bind. intros -> H. exact H. Qed.

Lemma returns_yields {A : Type} (r : DetectionResults) (m : M A) (a : A) :
  (forall w, results w = r -> returns m w a) -> yields r m (fun x => x = a).
Proof.
  intros H [r' out] Hw. simpl in Hw. subst r'. exists a, []. simpl.
  rewrite app_nil_r. split; [now apply H|reflexivity].
Qed.

Lemma returns_slice (w : World) (s : string) (lo hi : nat) :
  lo <= hi <= String.length s ->
  returns (slice s lo hi) w (substring lo (hi - lo) s).
Proof.
  intros [H1 H2]. unfold returns, slice.
  apply Nat.leb_le in H1, H2. now rewrite H1, H2.
Qed.

Ltac step :=
  first
    [ eapply yields_bind; [apply yields_receiver | intros ? ->]
    | eapply yields_bind; [apply yields_emit | intros _ _]
    | apply yields_emit
    | apply yields_ret ].

Lemma returns_reportDetail (w : World) (filePath : FilePath) (detail : Details)
    (data : list (list string)) :
  returns (reportDetail filePath detail data) w (data ++ [rowOf filePath detail]).
Proof.
  unfold reportDetail, rowOf, renderedMessage.
  destruct (150 <? String.length (Message detail))%nat eqn:E.
  - apply Nat.ltb_lt in E.
    eapply returns_bind.
    + eapply returns_bind; [apply (returns_slice w (Message detail) 0 75); lia|].
      eapply returns_bind; [apply (returns_slice w (Message detail) 75 147); lia|].
      apply returns_ret.
    + apply returns_ret.
  - eapply returns_bind; apply returns_ret.
Qed.

Lemma returns_reportDetails (w : World) (filePath : FilePath) (details : list Details) :
  forall data,
    returns (reportDetails filePath details data) w (data ++ map (rowOf filePath) details).
Proof.
  induction details as [|d rest IH]; intros data; simpl.
  - rewrite app_nil_r. apply returns_ret.
  - eapply returns_bind; [apply returns_reportDetail|].
    replace (data ++ rowOf filePath d :: map (rowOf filePath) rest)
      with ((data ++ [rowOf filePath d]) ++ map (rowOf filePath) rest)
      by now rewrite <- app_assoc.
    apply IH.
Qed.

Lemma returns_getResultDetailsForFilePath (w : World) (fileName : FilePath) :
  returns (getResultDetailsForFilePath fileName) w
          (findResultDetails fileName (Results (results w))).
Proof. reflexivity. Qed.

Lemma returns_GetFailures (w : World) (fileName : FilePath) :
  returns (GetFailures fileName) w
          (match findResultDetails fileName (Results (results w)) with
           | Some rd => FailureList rd
           | None => []
           end).
Proof.
  unfold GetFailures.
  eapply returns_bind; [apply returns_getResultDetailsForFilePath|].
  destruct (findResultDetails fileName (Results (results w))) as [rd|].
  - eapply returns_bind; apply returns_ret.
  - apply returns_ret.
Qed.

Lemma returns_ReportFileFailures (w : World) (filePath : FilePath) (rd : ResultsDetails) :
  findResultDetails filePath (Results (results w)) = Some rd ->
  returns (ReportFileFailures filePath) w (map (rowOf filePath) (FailureList rd)).
Proof.
  intros Hf. unfold ReportFileFailures.
  eapply returns_bind; [apply returns_getResultDetailsForFilePath|].
  rewrite Hf. eapply returns_bind; [apply returns_ret|].
  destruct (FailureList rd) as [|d l] eqn:E.
  - apply returns_ret.
  - change (0 <? List.length (d :: l))%nat with true. cbv iota.
    apply (returns_reportDetails w filePath (d :: l) []).
Qed.

Lemma returns_ReportFileWarnings (w : World) (filePath : FilePath) (rd : ResultsDetails) :
  findResultDetails filePath (Results (results w)) = Some rd ->
  returns (ReportFileWarnings filePath) w (map (rowOf filePath) (WarningList rd)).
Proof.
  intros Hf. unfold ReportFileWarnings.
  eapply returns_bind; [apply returns_getResultDetailsForFilePath|].
  rewrite Hf. eapply returns_bind; [apply returns_ret|].
  destruct (WarningList rd) as [|d l] eqn:E.
  - apply returns_ret.
  - change (0 <? List.length (d :: l))%nat with true. cbv iota.
    apply (returns_reportDetails w filePath (d :: l) []).
Qed.

Lemma yields_ReportFileFailures (r : DetectionResults) (filePath : FilePath)
    (rd : ResultsDetails) :
  findResultDetails filePath (Results r) = Some rd ->
  yields r (ReportFileFailures filePath)
         (fun data => data = map (rowOf filePath) (FailureList rd)).
Proof.
  intros Hf. apply returns_yields. intros w <-. now apply returns_ReportFileFailures.
Qed.

Lemma yields_ReportFileWarnings (r : DetectionResults) (filePath : FilePath)
    (rd : ResultsDetails) :
  findResultDetails filePath (Results r) = Some rd ->
  yields r (ReportFileWarnings filePath)
         (fun data => data = map (rowOf filePath) (WarningList rd)).
Proof.
  intros Hf. apply returns_yields. intros w <-. now apply returns_ReportFileWarnings.
Qed.

(** A nil ledger pointer: the field selection panics. *)
Lemma ReportFileFailures_nil (w : World) (filePath : FilePath) :
  findResultDetails filePath (Results (results w)) = None ->
  ReportFileFailures filePath w = Panic.
Proof.
  intros Hf. unfold ReportFileFailures, getResultDetailsForFilePath, bind, receiver, ret.
  now rewrite Hf.
Qed.

Lemma ReportFileWarnings_nil (w : World) (filePath : FilePath) :
  findResultDetails filePath (Results (results w)) = None ->
  ReportFileWarnings filePath w = Panic.
Proof.
  intros Hf. unfold ReportFileWarnings, getResultDetailsForFilePath, bind, receiver, ret.
  now rewrite Hf.
Qed.

(** ** The reports return, and leave the run state alone *)

Section ReportingProperties.

Variable CollectiveSHA256Hash : list string -> string.
Variable GOOS : string.
Variable yaml_Marshal_config : IgnoreConfig -> string * option string.
Variable yaml_Marshal_rc : list IgnoreConfig -> string.
Variable git_add_talismanrc : string * option string.

Lemma yields_collectFailures (r : DetectionResults) (l : list ResultsDetails) :
  incl l (Results r) ->
  forall paths data,
    yields r (collectFailures l paths data)
           (fun res => res = (paths ++ map Filename (filter hasFailuresOrIgnores l),
                              data ++ flat_map (failureRows r) (filter hasFailuresOrIgnores l))).
Proof.
  induction l as [|rd rest IH]; intros Hincl paths data; simpl.
  - apply yields_ret. now rewrite !app_nil_r.
  - assert (Hrest : incl rest (Results r)) by (intros x Hx; apply Hincl; now right).
    fold (hasFailuresOrIgnores rd). destruct (hasFailuresOrIgnores rd).
    + destruct (findResultDetails_In (Filename rd) (Results r)) as [found Hfound].
      { apply in_map. apply Hincl. now left. }
      eapply yields_bind; [apply (yields_ReportFileFailures r _ found Hfound)|].
      intros failureData ->.
      eapply yields_weaken; [apply (IH Hrest)|].
      intros res ->. simpl. unfold failureRows at 2. rewrite Hfound.
      now rewrite <- !app_assoc.
    + apply (IH Hrest).
Qed.

Lemma yields_collectWarnings (r : DetectionResults) (l : list ResultsDetails) :
  incl l (Results r) ->
  forall paths data,
    yields r (collectWarnings l paths data)
           (fun res => res = (paths ++ map Filename (filter hasWarningEntries l),
                              data ++ flat_map (warningRows r) (filter hasWarningEntries l))).
Proof.
  induction l as [|rd rest IH]; intros Hincl paths data; simpl.
  - apply yields_ret. now rewrite !app_nil_r.
  - assert (Hrest : incl rest (Results r)) by (intros x Hx; apply Hincl; now right).
    fold (hasWarningEntries rd). destruct (hasWarningEntries rd).
    + destruct (findResultDetails_In (Filename rd) (Results r)) as [found Hfound].
      { apply in_map. apply Hincl. now left. }
      eapply yields_bind; [apply (yields_ReportFileWarnings r _ found Hfound)|].
      intros warningData ->.
      eapply yields_weaken; [apply (IH Hrest)|].
      intros res ->. simpl. unfold warningRows at 2. rewrite Hfound.
      now rewrite <- !app_assoc.
    + apply (IH Hrest).
Qed.

Lemma yields_ReportWarnings (r : DetectionResults) :
  yields r ReportWarnings
         (fun s => s = if (Warnings (Types (Summary r)) >? 0)%Z
                       then (reviewHint ++ newline)%string else "").
Proof.
  unfold ReportWarnings. step.
  eapply yields_bind; [apply (yields_collectWarnings r (Results r) (incl_refl _))|].
  intros collected ->. step.
  destruct (Warnings (Types (Summary r)) >? 0)%Z.
  - step. step. step. reflexivity.
  - step. reflexivity.
Qed.

Lemma yields_confirm (r : DetectionResults) (config : IgnoreConfig)
    (promptContext : PromptContext) :
  yields r (confirm yaml_Marshal_config config promptContext) (fun _ => True).
Proof.
  unfold confirm. destruct (yaml_Marshal_config config) as [bytes [e|]].
  - step. step. step. step. step. exact I.
  - apply yields_bind with (P := fun _ => True); [now apply yields_ret|]. intros _ _.
    step. step. step. step. exact I.
Qed.

Lemma yields_confirmEach (r : DetectionResults) (promptContext : PromptContext)
    (configs : list IgnoreConfig) :
  forall confirmed,
    yields r (confirmEach yaml_Marshal_config configs confirmed promptContext)
           (fun _ => True).
Proof.
  induction configs as [|config rest IH]; intros confirmed; simpl.
  - step. exact I.
  - eapply yields_bind; [apply yields_confirm|].
    intros [|] _; apply IH.
Qed.

Lemma yields_offerEntries (r : DetectionResults) (m : Mode)
    (entriesToAdd : list IgnoreConfig) (promptContext : PromptContext) :
  yields r (offerEntries GOOS yaml_Marshal_config yaml_Marshal_rc git_add_talismanrc
              m entriesToAdd promptContext)
         (fun _ => True).
Proof.
  unfold offerEntries.
  destruct (Interactive promptContext && negb (String.eqb GOOS "windows"))%bool.
  - eapply yields_bind.
    + unfold getUserConfirmation.
      eapply yields_bind with (P := fun _ => True).
      * destruct (negb (List.length entriesToAdd =? 0)%nat); step. exact I.

      * intros _ _. apply yields_confirmEach.
    + intros confirmedEntries _. step.
      destruct git_add_talismanrc as [output [e|]].
      * step. step.
      * step. step. exact I.
  - unfold printTalismanIgnoreSuggestion. step. step.
Qed.

Lemma yields_Report (r : DetectionResults) (promptContext : PromptContext) :
  yields r (Report CollectiveSHA256Hash GOOS yaml_Marshal_config yaml_Marshal_rc
              git_add_talismanrc promptContext)
         (fun s => s = "").
Proof.
  unfold Report. step.
  eapply yields_bind; [apply (yields_collectFailures r (Results r) (incl_refl _))|].
  intros collected ->. step.
  eapply yields_bind with (P := fun _ => True).
  - destruct (HasFailures r).
    + step. step. step. unfold suggestTalismanRC. step. apply yields_offerEntries.
    + step. exact I.
  - intros _ _. step. reflexivity.
Qed.

End ReportingProperties.

(** ** Findings under one key *)

Lemma sameCategoryAndMessage_refl (category message : string) (commits : list string)
    (severity : Severity) :
  sameCategoryAndMessage category message (mkDetails category message commits severity) = true.
Proof. now apply sameCategoryAndMessage_true. Qed.

(** ** Counted and uncounted categories *)

(** C3. After any sequence of recording calls on a fresh run state (fewer
    than 2^63 of them, so that no counter wraps), [HasFailures] is true
    exactly when some [Fail] call used one of the categories "filecontent",
    "filesize", "filename".  A [Fail] call with any other category leaves
    [HasFailures] as it was, in every run state; and the finding of every
    [Fail] call, whatever its category, is in the failure list of the ledger
    of its path at the end of the run. *)
Theorem HasFailures_iff_counted_category (m : Mode) (calls : list Call) :
  (Z.of_nat (List.length calls) <= max_int)%Z ->
  let r := run calls (NewDetectionResults m) in
  (HasFailures r = true <->
   exists filePath category message commits severity,
     In (CallFail filePath category message commits severity) calls /\
     countedCategory category) /\
  (forall r0 filePath category message commits severity,
     ~ countedCategory category ->
     HasFailures (Fail r0 filePath category message commits severity) = HasFailures r0) /\
  (forall filePath category message commits severity,
     In (CallFail filePath category message commits severity) calls ->
     failureStored filePath category message r).
Proof.
  intros Hlen r. split; [|split].
  - assert (Hb : failureCountersWithin 0 (NewDetectionResults m)).
    { unfold failureCountersWithin. simpl. lia. }
    destruct (run_failureCounters calls 0 (NewDetectionResults m) Hb) as [_ Hiff];
      [lia|].
    fold r in Hiff. rewrite Hiff. split.
    + intros [H|[c [Hin Hc]]]; [discriminate|].
      destruct c as [p cat msg cs s| |]; try contradiction.
      exists p, cat, msg, cs, s. split; assumption.
    + intros (p & cat & msg & cs & s & Hin & Hc). right.
      exists (CallFail p cat msg cs s). split; assumption.
  - intros r0 p cat msg cs s Hc. unfold HasFailures.
    now rewrite Fail_Types, (updateResultsSummary_uncounted r0 cat Hc).
  - intros p cat msg cs s Hin. now apply (run_failureStored p cat msg cs s).
Qed.

(** ** Ignores *)


Lemma recordIgnore_records (category : string) (l : list Details) :
  In category (map Category (recordIgnore category l)).
Proof.
  rewrite recordIgnore_eq.
  destruct (existsb (sameCategory category) l) eqn:E.
  - apply existsb_exists in E. destruct E as [d [Hin Hd]].
    apply sameCategory_true in Hd. subst. now apply in_map.
  - rewrite map_app, in_app_iff. right. now left.
Qed.



(** ** The ledger invariant *)

(** C6. Every sequence of [Fail], [Warn] and [Ignore] calls on a fresh run
    state ends in a run state whose ledgers have pairwise distinct file
    paths, and in each ledger the failures have pairwise distinct
    (category, message), so do the warnings, and the ignores have pairwise
    distinct categories. *)
Theorem recording_keeps_ledgers_wellFormed (m : Mode) (calls : list Call) :
  let r := run calls (NewDetectionResults m) in
  NoDup (map Filename (Results r)) /\
  (forall rd, In rd (Results r) ->
     NoDup (map (fun d => (Category d, Message d)) (FailureList rd)) /\
     NoDup (map (fun d => (Category d, Message d)) (WarningList rd)) /\
     NoDup (map Category (IgnoreList rd))).
Proof.
  intros r.
  destruct (run_wellFormed calls (NewDetectionResults m) (New_wellFormed m)) as [Hn Hall].
  split; [exact Hn|].
  intros rd Hrd. rewrite Forall_forall in Hall. exact (Hall rd Hrd).
Qed.

(** ** Queries and rows for one file *)

(** C7. [GetFailures] never panics and changes nothing.  For a path that no
    ledger carries it returns the empty sequence; for a path that a ledger
    carries (ledgers having distinct paths) it returns the failure list of
    that ledger. *)
Theorem GetFailures_total (w : World) (fileName : FilePath) :
  (exists l, GetFailures fileName w = Ok (l, w)) /\
  (~ In fileName (map Filename (Results (results w))) ->
   GetFailures fileName w = Ok ([], w)) /\
  (forall rd,
     NoDup (map Filename (Results (results w))) ->
     In rd (Results (results w)) -> Filename rd = fileName ->
     GetFailures fileName w = Ok (FailureList rd, w)).
Proof.
  pose proof (returns_GetFailures w fileName) as Hrun. unfold returns in Hrun.
  split; [|split].
  - eexists. exact Hrun.
  - intros Hnone. apply findResultDetails_absent in Hnone. now rewrite Hnone in Hrun.
  - intros rd Hn Hin <-.
    now rewrite (findResultDetails_unique _ rd Hn Hin) in Hrun.
Qed.

Lemma rowOf_rendersAs (filePath : FilePath) (d : Details) :
  rendersAs filePath d (rowOf filePath d).
Proof.
  exists (renderedMessage (Message d)). unfold renderedMessage.
  split; [reflexivity|].
  destruct (150 <? String.length (Message d))%nat eqn:E.
  - apply Nat.ltb_lt in E. split; [lia|reflexivity].
  - apply Nat.ltb_ge in E. split; [reflexivity|lia].
Qed.

Lemma rows_renderAs (filePath : FilePath) (l : list Details) :
  Forall2 (rendersAs filePath) l (map (rowOf filePath) l).
Proof.
  induction l as [|d rest IH]; simpl; constructor.
  - apply rowOf_rendersAs.
  - exact IH.
Qed.

(** C4, as amended. For the ledger found under a path, [ReportFileFailures]
    and [ReportFileWarnings] return one row per finding, in order: the path,
    the message and the severity text, where lengths and positions count
    the bytes of the message, not its characters: a message of at most 150
    bytes is unmodified and a longer one is its first 75 bytes, a line
    break, its next 72 bytes and "...". *)
Theorem long_messages_are_truncated (w : World) (filePath : FilePath)
    (rd : ResultsDetails) :
  findResultDetails filePath (Results (results w)) = Some rd ->
  exists failureData warningData,
    ReportFileFailures filePath w = Ok (failureData, w) /\
    Forall2 (rendersAs filePath) (FailureList rd) failureData /\
    ReportFileWarnings filePath w = Ok (warningData, w) /\
    Forall2 (rendersAs filePath) (WarningList rd) warningData.
Proof.
  intros Hf.
  exists (map (rowOf filePath) (FailureList rd)), (map (rowOf filePath) (WarningList rd)).
  repeat split.
  - now apply returns_ReportFileFailures.
  - apply rows_renderAs.
  - now apply returns_ReportFileWarnings.
  - apply rows_renderAs.
Qed.

(** C9. For a path that no ledger carries, [ReportFileFailures] and
    [ReportFileWarnings] select a field through a nil pointer and panic,
    while [GetFailures], which tests the same lookup for nil, returns the
    empty sequence. *)
Theorem report_rows_panic_without_ledger (w : World) (filePath : FilePath) :
  ~ In filePath (map Filename (Results (results w))) ->
  ReportFileFailures filePath w = Panic /\
  ReportFileWarnings filePath w = Panic /\
  GetFailures filePath w = Ok ([], w).
Proof.
  intros Hnone. apply findResultDetails_absent in Hnone.
  split; [|split].
  - now apply ReportFileFailures_nil.
  - now apply ReportFileWarnings_nil.
  - pose proof (returns_GetFailures w filePath) as Hrun. unfold returns in Hrun.
    now rewrite Hnone in Hrun.
Qed.

(** ** The reports as a whole *)

(** C8. The reporting operations leave the run state as it is: for every
    path that has a ledger, [ReportFileFailures] and [ReportFileWarnings]
    return their rows in an unchanged world (truncation of a long message
    happens on the loop's copy of the finding); [ReportWarnings] and
    [Report] return with the run state unchanged, having only appended to
    standard output. *)
Theorem reporting_leaves_run_state_unchanged
    (CollectiveSHA256Hash : list string -> string) (GOOS : string)
    (yaml_Marshal_config : IgnoreConfig -> string * option string)
    (yaml_Marshal_rc : list IgnoreConfig -> string)
    (git_add_talismanrc : string * option string)
    (promptContext : PromptContext) (w : World) :
  (forall filePath,
     In filePath (map Filename (Results (results w))) ->
     exists failureData warningData w1 w2,
       ReportFileFailures filePath w = Ok (failureData, w1) /\ results w1 = results w /\
       ReportFileWarnings filePath w = Ok (warningData, w2) /\ results w2 = results w) /\
  (exists s w', ReportWarnings w = Ok (s, w') /\ results w' = results w) /\
  (exists s w',
     Report CollectiveSHA256Hash GOOS yaml_Marshal_config yaml_Marshal_rc
       git_add_talismanrc promptContext w = Ok (s, w') /\
     results w' = results w).
Proof.
  split; [|split].
  - intros filePath Hin.
    destruct (findResultDetails_In filePath _ Hin) as [rd Hrd].
    exists (map (rowOf filePath) (FailureList rd)), (map (rowOf filePath) (WarningList rd)), w, w.
    repeat split.
    + now apply returns_ReportFileFailures.
    + now apply returns_ReportFileWarnings.
  - destruct (yields_ReportWarnings (results w) w eq_refl) as (s & evs & E & _).
    exists s. eexists. split; [exact E|reflexivity].
  - destruct (yields_Report CollectiveSHA256Hash GOOS yaml_Marshal_config yaml_Marshal_rc
                git_add_talismanrc (results w) promptContext w eq_refl)
      as (s & evs & E & _).
    exists s. eexists. split; [exact E|reflexivity].
Qed.

(** ** End to end *)

(** C2, as amended. After one failure for "a.pem" and one ignore for "b.txt",
    [Successful] is false and [HasIgnores] is true; [Report] prints a table
    whose only row is for "a.pem", and offers ignore entries for two files,
    "a.pem" and "b.txt", in that order: a file with only an ignore is among
    the files of the suggestion. *)
Theorem end_to_end_suggests_both_files
    (CollectiveSHA256Hash : list string -> string) (GOOS : string)
    (yaml_Marshal_config : IgnoreConfig -> string * option string)
    (yaml_Marshal_rc : list IgnoreConfig -> string)
    (git_add_talismanrc : string * option string)
    (promptContext : PromptContext) (m : Mode)
    (commits : list string) (severity : Severity) (out : list Event) :
  let r := run (endToEndCalls commits severity) (NewDetectionResults m) in
  Successful r = false /\
  HasIgnores r = true /\
  reportsAndSuggests CollectiveSHA256Hash GOOS yaml_Marshal_config yaml_Marshal_rc
    git_add_talismanrc promptContext (mkWorld r out)
    [["a.pem"; "secret key"; Severity_String severity]]
    ["a.pem"; "b.txt"] /\
  List.length (buildEntries CollectiveSHA256Hash m ["a.pem"; "b.txt"]) = 2.
Proof.
  cbv zeta. repeat split.
Qed.

(** C2, as stated, fails: on the example, [Report] does not behave as if
    "a.pem" were the only file of the suggestion. *)
Lemma end_to_end_not_one_candidate :
  ~ reportsAndSuggests exampleHash "linux" exampleMarshalConfig exampleMarshalRC
      exampleGitAdd examplePrompt
      (mkWorld (run (endToEndCalls [] High) (NewDetectionResults exampleMode)) [])
      [["a.pem"; "secret key"; Severity_String High]]
      ["a.pem"].
Proof.
  unfold reportsAndSuggests. vm_compute. intros H. discriminate H.
Qed.

(** ** The theorems at work on an example run *)

Example exampleLedger_found :
  findResultDetails "a.pem" (Results (results exampleWorld)) = Some exampleLedger.
Proof. reflexivity. Qed.

Example truncation_of_200_bytes :
  ReportFileFailures "a.pem" exampleWorld =
  Ok ([["a.pem";
        (substring 0 75 exampleLongMessage ++ newline
         ++ substring 75 72 exampleLongMessage ++ "...")%string;
        "high"]],
      exampleWorld).
Proof. reflexivity. Qed.

(** C4, as stated, fails: a message of 76 characters, each of two bytes, is
    not rendered unmodified.  Its 152 bytes are cut after byte 75 and after
    byte 147, both times between the two bytes of a character. *)
Lemma truncation_cuts_inside_a_character :
  characterCount exampleAccentedMessage = 76 /\
  String.length exampleAccentedMessage = 152 /\
  exists rendered,
    ReportFileFailures "a.pem" exampleAccentedWorld
    = Ok ([["a.pem"; rendered; "low"]], exampleAccentedWorld) /\
    rendered <> exampleAccentedMessage /\
    rendered = (repeatString 37 eAcute ++ String (ascii_of_nat 195) newline
                ++ String (ascii_of_nat 169) (repeatString 35 eAcute)
                ++ String (ascii_of_nat 195) "...")%string.
Proof.
  split; [reflexivity|]. split; [reflexivity|].
  exists (repeatString 37 eAcute ++ String (ascii_of_nat 195) newline
          ++ String (ascii_of_nat 169) (repeatString 35 eAcute)
          ++ String (ascii_of_nat 195) "...")%string.
  split; [vm_compute; reflexivity|]. split; [|reflexivity].
  intros H. apply (f_equal String.length) in H. vm_compute in H. discriminate H.
Qed.

(** C10, as stated, fails: with a warning counter of -1, which is not zero,
    [ReportWarnings] returns the empty string. *)
Lemma ReportWarnings_empty_below_zero :
  Warnings (Types (Summary (results exampleNegativeWorld))) = (-1)%Z /\
  ReportWarnings exampleNegativeWorld = Ok ("", exampleNegativeWorld) /\
  ~ (forall w s w',
       ReportWarnings w = Ok (s, w') ->
       (s <> "" <-> Warnings (Types (Summary (results w))) <> 0%Z)).
Proof.
  split; [reflexivity|]. split; [reflexivity|].
  intros H.
  destruct (H exampleNegativeWorld "" exampleNegativeWorld eq_refl) as [_ Hback].
  apply Hback; [discriminate|reflexivity].
Qed.

Example Ignore_twice_on_a_fresh_state :
  let r := Ignore (Ignore (NewDetectionResults exampleMode) "p" "secrets") "p" "secrets" in
  Ignores (Types (Summary r)) = 2%Z /\
  Results r = [mkResultsDetails "p" [] [] [mkDetails "secrets" "" [] Low]].
Proof. split; reflexivity. Qed.

Example uncounted_category_is_stored_not_counted :
  let r := Fail (NewDetectionResults exampleMode) "notes.txt" "custom" "odd" [] Medium in
  HasFailures r = false /\
  Results r = [mkResultsDetails "notes.txt" [mkDetails "custom" "odd" [] Medium] [] []].
Proof. split; reflexivity. Qed.


Lemma HasFailures_iff_counted_category_witness :
  (Z.of_nat (List.length exampleCalls) <= max_int)%Z /\
  (HasFailures (run exampleCalls (NewDetectionResults exampleMode)) = true <->
   exists filePath category message commits severity,
     In (CallFail filePath category message commits severity) exampleCalls /\
     countedCategory category).
Proof.
  assert (H : (Z.of_nat (List.length exampleCalls) <= max_int)%Z).
  { simpl. unfold max_int, int_bits. lia. }
  split; [exact H|].
  exact (proj1 (HasFailures_iff_counted_category exampleMode exampleCalls H)).
Defined.

Lemma long_messages_are_truncated_witness :
  findResultDetails "a.pem" (Results (results exampleWorld)) = Some exampleLedger /\
  exists failureData warningData,
    ReportFileFailures "a.pem" exampleWorld = Ok (failureData, exampleWorld) /\
    Forall2 (rendersAs "a.pem") (FailureList exampleLedger) failureData /\
    ReportFileWarnings "a.pem" exampleWorld = Ok (warningData, exampleWorld) /\
    Forall2 (rendersAs "a.pem") (WarningList exampleLedger) warningData.
Proof.
  split; [reflexivity|].
  apply (long_messages_are_truncated exampleWorld "a.pem" exampleLedger).
  reflexivity.
Defined.

Lemma GetFailures_total_witness :
  GetFailures "zz" exampleWorld = Ok ([], exampleWorld) /\
  GetFailures "a.pem" exampleWorld = Ok (FailureList exampleLedger, exampleWorld).
Proof.
  split.
  - apply (proj1 (proj2 (GetFailures_total exampleWorld "zz"))).
    simpl. intros [H|[H|[]]]; discriminate H.
  - apply (proj2 (proj2 (GetFailures_total exampleWorld "a.pem")) exampleLedger).
    + simpl. apply NoDup_cons; [intros [H|[]]; discriminate H|].
      apply NoDup_cons; [intros []|apply NoDup_nil].
    + simpl. now left.
    + reflexivity.
Defined.

Lemma report_rows_panic_without_ledger_witness :
  ~ In "zz" (map Filename (Results (results exampleWorld))) /\
  ReportFileFailures "zz" exampleWorld = Panic /\
  ReportFileWarnings "zz" exampleWorld = Panic /\
  GetFailures "zz" exampleWorld = Ok ([], exampleWorld).
Proof.
  assert (H : ~ In "zz" (map Filename (Results (results exampleWorld)))).
  { simpl. intros [H|[H|[]]]; discriminate H. }
  split; [exact H|].
  exact (report_rows_panic_without_ledger exampleWorld "zz" H).
Defined.

Lemma reporting_leaves_run_state_unchanged_witness :
  In "a.pem" (map Filename (Results (results exampleWorld))) /\
  exists failureData warningData w1 w2,
    ReportFileFailures "a.pem" exampleWorld = Ok (failureData, w1) /\
    results w1 = results exampleWorld /\
    ReportFileWarnings "a.pem" exampleWorld = Ok (warningData, w2) /\
    results w2 = results exampleWorld.
Proof.
  assert (H : In "a.pem" (map Filename (Results (results exampleWorld)))).
  { simpl. now left. }
  split; [exact H|].
  exact (proj1 (reporting_leaves_run_state_unchanged exampleHash "linux"
                  exampleMarshalConfig exampleMarshalRC exampleGitAdd examplePrompt
                  exampleWorld) "a.pem" H).
Defined.

(** ** Commits over shared arrays *)

Module SliceFacts.

Import Slices.






Section Growth.

Variable growslice : nat -> nat -> nat.










Section OneList.

(** The list a method works on, and the assignment to it. *)
Variable proj : ResultsDetails -> list Details.
Variable assign : ResultsDetails -> list Details -> ResultsDetails.
Hypothesis proj_assign : forall rd l, proj (assign rd l) = l.
Hypothesis name_assign : forall rd l, Filename (assign rd l) = Filename rd.
Hypothesis proj_empty : forall p, proj (emptyResultsDetails p) = [].

(** The body of the outer loop of the method. *)
Variable bodyOn :
  string -> string -> slice -> Severity -> store -> ResultsDetails -> store * ResultsDetails.
Hypothesis bodyOn_records :
  forall category message commits severity h rd,
    bodyOn category message commits severity h rd =
    (fst (recordDetails growslice category message commits severity h (proj rd)),
     assign rd (snd (recordDetails growslice category message commits severity h (proj rd)))).




End OneList.













End Growth.


(** What the three calls leave instead: the second call writes "a" over the
    "c" of the caller's array, which the third call then passes. *)
Example commits_when_the_calls_are_made :
  map (fun a => contents exampleStore (fst a)) exampleArgs = [["a"; "b"]; ["a"]; ["c"]] /\
  commitsOfFail exampleGrowslice "p" "filecontent" "secret key" exampleArgs
    (exampleStore, NewDetectionResults 1%Z) = [["a"; "b"]; ["a"]; ["a"]] /\
  (let final := runFail exampleGrowslice "p" "filecontent" "secret key" exampleArgs
                  (exampleStore, NewDetectionResults 1%Z) in
   map (fun rd => map (fun d => (Message d, contents (fst final) (Commits d)))
                    (FailureList rd))
       (Results (snd final))
   = [[("secret key", ["a"; "b"; "a"; "a"])]]).
Proof. repeat split. Qed.

(** Two findings over one array: the commit appended to the second takes the
    place of the commit appended to the first. *)
Example shared_array_is_overwritten :
  map (fun rd => map (fun d => (Message d, contents (fst exampleShared) (Commits d)))
                   (FailureList rd))
      (Results (snd exampleShared))
  = [[("m1", ["c1"; "c2"; "c3"; "y"]); ("m2", ["c1"; "c2"; "c3"; "y"])]].
Proof. reflexivity. Qed.





End SliceFacts.

(** ** The two levels agree on all but the commits *)

Section TwoLevels.

Variable growslice : nat -> nat -> nat.

Lemma withoutCommitsOf_read (h h' : Slices.store) (d : Slices.Details) :
  withoutCommitsOf (readDetails h d) = withoutCommitsOf (readDetails h' d).
Proof. reflexivity. Qed.

Lemma withoutCommitsOf_read_list (h h' : Slices.store) (l : list Slices.Details) :
  map withoutCommitsOf (map (readDetails h) l) = map withoutCommitsOf (map (readDetails h') l).
Proof. rewrite !map_map. apply map_ext. intros d. reflexivity. Qed.

Lemma withoutCommitsIn_read (h h' : Slices.store) (rd : Slices.ResultsDetails) :
  withoutCommitsIn (readResultsDetails h rd) = withoutCommitsIn (readResultsDetails h' rd).
Proof.
  unfold withoutCommitsIn, readResultsDetails. cbn [Filename FailureList WarningList IgnoreList].
  now rewrite (withoutCommitsOf_read_list h h' (Slices.FailureList rd)),
    (withoutCommitsOf_read_list h h' (Slices.WarningList rd)),
    (withoutCommitsOf_read_list h h' (Slices.IgnoreList rd)).
Qed.

Lemma mergeCommits_agree (category message : string) (commits : Slices.slice)
    (xs : list string) (h0 : Slices.store) (l : list Slices.Details) :
  forall (h : Slices.store) (present : bool),
    map withoutCommitsOf
      (map (readDetails h0)
         (snd (fst (Slices.mergeCommits growslice category message commits h l present))))
    = map withoutCommitsOf
        (fst (mergeCommits category message xs (map (readDetails h0) l) present)) /\
    snd (Slices.mergeCommits growslice category message commits h l present)
    = snd (mergeCommits category message xs (map (readDetails h0) l) present).
Proof.
  induction l as [|d rest IH]; intros h present; [split; reflexivity|].
  cbn [Slices.mergeCommits mergeCommits map].
  change (sameCategoryAndMessage category message (readDetails h0 d))
    with (Slices.sameCategoryAndMessage category message d).
  destruct (Slices.sameCategoryAndMessage category message d).
  - destruct (Slices.append growslice h (Slices.Commits d) (Slices.contents h commits))
      as [h1 merged].
    destruct (IH h1 true) as [E1 E2].
    destruct (Slices.mergeCommits growslice category message commits h1 rest true)
      as [[h2 rest'] p].
    destruct (mergeCommits category message xs (map (readDetails h0) rest) true)
      as [rest'' p'].
    cbn [fst snd map] in *. split; [|exact E2]. f_equal. exact E1.
  - destruct (IH h present) as [E1 E2].
    destruct (Slices.mergeCommits growslice category message commits h rest present)
      as [[h2 rest'] p].
    destruct (mergeCommits category message xs (map (readDetails h0) rest) present)
      as [rest'' p'].
    cbn [fst snd map] in *. split; [|exact E2]. f_equal. exact E1.
Qed.

Lemma recordDetails_agree (category message : string) (commits : Slices.slice)
    (xs : list string) (severity : Severity) (h0 h : Slices.store)
    (l : list Slices.Details) :
  map withoutCommitsOf
    (map (readDetails h0)
       (snd (Slices.recordDetails growslice category message commits severity h l)))
  = map withoutCommitsOf
      (recordDetails category message xs severity (map (readDetails h0) l)).
Proof.
  unfold Slices.recordDetails, recordDetails.
  destruct (mergeCommits_agree category message commits xs h0 l h false) as [E1 E2].
  destruct (Slices.mergeCommits growslice category message commits h l false)
    as [[h' l'] p].
  destruct (mergeCommits category message xs (map (readDetails h0) l) false) as [l'' p'].
  cbn [fst snd] in *. subst p'. destruct p; cbn [negb snd].
  - exact E1.
  - rewrite !map_app, E1. reflexivity.
Qed.

Lemma forEachResult_agree (filePath : FilePath)
    (body : Slices.store -> Slices.ResultsDetails -> Slices.store * Slices.ResultsDetails)
    (body' : ResultsDetails -> ResultsDetails) (h0 : Slices.store) :
  (forall h rd,
     withoutCommitsIn (readResultsDetails h0 (snd (body h rd)))
     = withoutCommitsIn (body' (readResultsDetails h0 rd))) ->
  forall (l : list Slices.ResultsDetails) (h : Slices.store) (present : bool),
    map withoutCommitsIn
      (map (readResultsDetails h0)
         (snd (fst (Slices.forEachResult filePath body h l present))))
    = map withoutCommitsIn
        (fst (forEachResult filePath body' (map (readResultsDetails h0) l) present)) /\
    snd (Slices.forEachResult filePath body h l present)
    = snd (forEachResult filePath body' (map (readResultsDetails h0) l) present).
Proof.
  intros Hbody. induction l as [|rd rest IH]; intros h present; [split; reflexivity|].
  cbn [Slices.forEachResult forEachResult map].
  change (Filename (readResultsDetails h0 rd)) with (Slices.Filename rd).
  destruct (String.eqb (Slices.Filename rd) filePath).
  - pose proof (Hbody h rd) as Hb.
    destruct (body h rd) as [h1 rd1].
    destruct (IH h1 true) as [E1 E2].
    destruct (Slices.forEachResult filePath body h1 rest true) as [[h2 rest'] p].
    destruct (forEachResult filePath body' (map (readResultsDetails h0) rest) true)
      as [rest'' p'].
    cbn [fst snd map] in *. split; [|exact E2]. now rewrite Hb, E1.
  - destruct (IH h present) as [E1 E2].
    destruct (Slices.forEachResult filePath body h rest present) as [[h2 rest'] p].
    destruct (forEachResult filePath body' (map (readResultsDetails h0) rest) present)
      as [rest'' p'].
    cbn [fst snd map] in *. split; [|exact E2]. now rewrite E1.
Qed.

Lemma withoutCommits_read (h h' : Slices.store) (r : Slices.DetectionResults) :
  withoutCommits (readDetectionResults h r) = withoutCommits (readDetectionResults h' r).
Proof.
  unfold withoutCommits, readDetectionResults. cbn [mode Summary Results]. f_equal.
  rewrite !map_map. apply map_ext. intros rd. apply withoutCommitsIn_read.
Qed.

Lemma withoutCommits_updateResultsSummary (r r' : DetectionResults) (category : string) :
  withoutCommits r = withoutCommits r' ->
  withoutCommits (updateResultsSummary r category)
  = withoutCommits (updateResultsSummary r' category).
Proof.
  intros E. unfold withoutCommits in E. injection E as Em Es Er.
  unfold updateResultsSummary. rewrite Es.
  repeat (match goal with |- context [if ?b then _ else _] => destruct b end);
    unfold withoutCommits, set_Types; cbn [mode Summary Results]; now rewrite ?Em, ?Es, ?Er.
Qed.

Lemma read_updateResultsSummary (h : Slices.store) (r : Slices.DetectionResults)
    (category : string) :
  readDetectionResults h (Slices.updateResultsSummary r category)
  = updateResultsSummary (readDetectionResults h r) category.
Proof.
  unfold Slices.updateResultsSummary, updateResultsSummary.
  change (Types (Summary (readDetectionResults h r))) with (Types (Slices.Summary r)).
  repeat (match goal with |- context [if ?b then _ else _] => destruct b end);
    reflexivity.
Qed.

(** Apart from the commits, [Fail] over slices and [Fail] over lists do the
    same to the run state, whatever the arrays hold. *)
Lemma Fail_agrees_without_commits (h : Slices.store) (r : Slices.DetectionResults)
    (filePath : FilePath) (category message : string) (commits : Slices.slice)
    (xs : list string) (severity : Severity) :
  let after := Slices.Fail growslice (h, r) filePath category message commits severity in
  withoutCommits (readDetectionResults (fst after) (snd after))
  = withoutCommits (Fail (readDetectionResults h r) filePath category message xs severity).
Proof.
  cbv zeta.
  rewrite (withoutCommits_read _ h).
  unfold Slices.Fail, Fail.
  change (Results (readDetectionResults h r))
    with (map (readResultsDetails h) (Slices.Results r)).
  destruct (forEachResult_agree filePath
              (Slices.failBody growslice category message commits severity)
              (fun rd => set_FailureList rd
                           (recordDetails category message xs severity (FailureList rd)))
              h)
    with (l := Slices.Results r) (h := h) (present := false) as [E1 E2].
  { intros h1 rd. unfold Slices.failBody.
    pose proof (recordDetails_agree category message commits xs severity h h1
                  (Slices.FailureList rd)) as Hr.
    destruct (Slices.recordDetails growslice category message commits severity h1
                (Slices.FailureList rd)) as [h2 l2].
    cbn [snd] in *. unfold withoutCommitsIn, readResultsDetails, set_FailureList.
    cbn [Filename FailureList WarningList IgnoreList Slices.set_FailureList
         Slices.Filename Slices.FailureList Slices.WarningList Slices.IgnoreList].
    now rewrite Hr. }
  destruct (Slices.forEachResult filePath
              (Slices.failBody growslice category message commits severity)
              h (Slices.Results r) false) as [[h' results] present].
  destruct (forEachResult filePath
              (fun rd => set_FailureList rd
                           (recordDetails category message xs severity (FailureList rd)))
              (map (readResultsDetails h) (Slices.Results r)) false) as [results' present'].
  cbn [fst snd] in *. subst present'.
  rewrite read_updateResultsSummary. apply withoutCommits_updateResultsSummary.
  destruct present; cbn [negb];
    unfold withoutCommits, readDetectionResults, set_Results, Slices.set_Results;
    cbn [mode Summary Results Slices.mode Slices.Summary Slices.Results]; f_equal.
  - exact E1.
  - rewrite !map_app, E1. reflexivity.
Qed.

Lemma Warn_agrees_without_commits (h : Slices.store) (r : Slices.DetectionResults)
    (filePath : FilePath) (category message : string) (commits : Slices.slice)
    (xs : list string) (severity : Severity) :
  let after := Slices.Warn growslice (h, r) filePath category message commits severity in
  withoutCommits (readDetectionResults (fst after) (snd after))
  = withoutCommits (Warn (readDetectionResults h r) filePath category message xs severity).
Proof.
  cbv zeta.
  rewrite (withoutCommits_read _ h).
  unfold Slices.Warn, Warn.
  change (Results (readDetectionResults h r))
    with (map (readResultsDetails h) (Slices.Results r)).
  destruct (forEachResult_agree filePath
              (Slices.warnBody growslice category message commits severity)
              (fun rd => set_WarningList rd
                           (recordDetails category message xs severity (WarningList rd)))
              h)
    with (l := Slices.Results r) (h := h) (present := false) as [E1 E2].
  { intros h1 rd. unfold Slices.warnBody.
    pose proof (recordDetails_agree category message commits xs severity h h1
                  (Slices.WarningList rd)) as Hr.
    destruct (Slices.recordDetails growslice category message commits severity h1
                (Slices.WarningList rd)) as [h2 l2].
    cbn [snd] in *. unfold withoutCommitsIn, readResultsDetails, set_WarningList.
    cbn [Filename FailureList WarningList IgnoreList Slices.set_WarningList
         Slices.Filename Slices.FailureList Slices.WarningList Slices.IgnoreList].
    now rewrite Hr. }
  destruct (Slices.forEachResult filePath
              (Slices.warnBody growslice category message commits severity)
              h (Slices.Results r) false) as [[h' results] present].
  destruct (forEachResult filePath
              (fun rd => set_WarningList rd
                           (recordDetails category message xs severity (WarningList rd)))
              (map (readResultsDetails h) (Slices.Results r)) false) as [results' present'].
  cbn [fst snd] in *. subst present'.
  change (readDetectionResults h (Slices.incrWarnings ?x)) with (incrWarnings (readDetectionResults h x)).
  unfold incrWarnings, Slices.incrWarnings.
  destruct present; cbn [negb];
    unfold withoutCommits, readDetectionResults, set_Results, Slices.set_Results, set_Types,
      Slices.set_Types;
    cbn [mode Summary Results Slices.mode Slices.Summary Slices.Results]; f_equal.
  - exact E1.
  - rewrite !map_app, E1. reflexivity.
Qed.

End TwoLevels.

(** * Further properties *)

(** ** Helpers on one ledger *)

Lemma getDetails_Some (l : list Details) (category message : string) (d : Details) :
  getDetailsByCategoryAndMessage l category message = Some d ->
  In d l /\ Category d = category /\ Message d = message.
Proof.
  induction l as [|x rest IH]; simpl; [discriminate|].
  destruct (sameCategoryAndMessage category message x) eqn:E.
  - intros [= <-]. apply sameCategoryAndMessage_true in E. split; [now left|exact E].
  - intros H. destruct (IH H) as [Hin Hk]. split; [now right|exact Hk].
Qed.

Lemma getDetails_None (l : list Details) (category message : string) :
  getDetailsByCategoryAndMessage l category message = None <->
  ~ In (category, message) (map key l).
Proof.
  induction l as [|x rest IH]; simpl.
  - split; [intros _ []|reflexivity].
  - destruct (sameCategoryAndMessage category message x) eqn:E.
    + apply sameCategoryAndMessage_true in E. destruct E as [E1 E2].
      split; [discriminate|]. intros H. exfalso. apply H. left.
      unfold key. now rewrite E1, E2.
    + apply sameCategoryAndMessage_false in E. rewrite IH. unfold key at 1.
      split.
      * intros H [H'|H']; [now apply E|now apply H].
      * intros H H'. apply H. now right.
Qed.


Lemma getDetails_app (l l' : list Details) (category message : string) :
  getDetailsByCategoryAndMessage (l ++ l') category message =
  match getDetailsByCategoryAndMessage l category message with
  | Some d => Some d
  | None => getDetailsByCategoryAndMessage l' category message
  end.
Proof.
  induction l as [|x rest IH]; simpl; [reflexivity|].
  now destruct (sameCategoryAndMessage category message x).
Qed.

Lemma set_FailureList_same (rd : ResultsDetails) : set_FailureList rd (FailureList rd) = rd.
Proof. now destruct rd. Qed.

Lemma set_WarningList_same (rd : ResultsDetails) : set_WarningList rd (WarningList rd) = rd.
Proof. now destruct rd. Qed.

Lemma set_IgnoreList_same (rd : ResultsDetails) : set_IgnoreList rd (IgnoreList rd) = rd.
Proof. now destruct rd. Qed.


(** X2. [getFailureDataByCategoryAndMessage] looks up or inserts: the detail
    it returns has the category and message asked for and is afterwards
    found by the search in the ledger's failures; asking again returns the
    same detail and changes nothing.  A ledger that already had such a
    failure is returned unchanged; otherwise exactly one failure, with no
    commits and severity Low, is appended.  Distinct (category, message)
    pairs stay distinct. *)
Theorem getFailureData_finds_or_inserts (rd : ResultsDetails)
    (failureMessage category : string) :
  let d := fst (getFailureDataByCategoryAndMessage rd failureMessage category) in
  let rd' := snd (getFailureDataByCategoryAndMessage rd failureMessage category) in
  Category d = category /\ Message d = failureMessage /\
  getDetailsByCategoryAndMessage (FailureList rd') category failureMessage = Some d /\
  getFailureDataByCategoryAndMessage rd' failureMessage category = (d, rd') /\
  (In (category, failureMessage) (map key (FailureList rd)) -> rd' = rd) /\
  (~ In (category, failureMessage) (map key (FailureList rd)) ->
   rd' = set_FailureList rd (FailureList rd ++ [mkDetails category failureMessage [] Low])) /\
  (NoDup (map key (FailureList rd)) -> NoDup (map key (FailureList rd'))).
Proof.
  cbv zeta.
  destruct (getDetailsByCategoryAndMessage (FailureList rd) category failureMessage)
    as [d|] eqn:E.
  - assert (Hrun : getFailureDataByCategoryAndMessage rd failureMessage category = (d, rd)).
    { unfold getFailureDataByCategoryAndMessage. now rewrite E. }
    rewrite Hrun. cbn [fst snd].
    pose proof (getDetails_Some _ _ _ _ E) as (Hin & Hc & Hm).
    split; [exact Hc|]. split; [exact Hm|]. split; [exact E|]. split; [exact Hrun|].
    split; [reflexivity|]. split; [|auto].
    intros Hno. apply getDetails_None in Hno. congruence.
  - pose proof E as Hno. apply getDetails_None in Hno.
    assert (Hrun : getFailureDataByCategoryAndMessage rd failureMessage category
                   = (mkDetails category failureMessage [] Low,
                      set_FailureList rd
                        (FailureList rd ++ [mkDetails category failureMessage [] Low]))).
    { unfold getFailureDataByCategoryAndMessage. now rewrite E. }
    rewrite Hrun. cbn [fst snd].
    assert (Hfound : getDetailsByCategoryAndMessage
                       (FailureList rd ++ [mkDetails category failureMessage [] Low])
                       category failureMessage
                     = Some (mkDetails category failureMessage [] Low)).
    { rewrite getDetails_app, E. simpl. now rewrite sameCategoryAndMessage_refl. }
    split; [reflexivity|]. split; [reflexivity|]. split; [exact Hfound|].
    split.
    { unfold getFailureDataByCategoryAndMessage. cbn [set_FailureList FailureList].
      now rewrite Hfound. }
    split; [intros Hin; contradiction|]. split; [reflexivity|].
    intros Hn. cbn [set_FailureList FailureList]. rewrite map_app. simpl.
    now apply NoDup_snoc.
Qed.

Lemma addIgnoreDataByCategory_eq (rd : ResultsDetails) (category : string) :
  addIgnoreDataByCategory rd category =
  if existsb (sameCategory category) (IgnoreList rd)
  then rd
  else set_IgnoreList rd (IgnoreList rd ++ [mkDetails category "" [] Low]).
Proof.
  unfold addIgnoreDataByCategory. rewrite categoryPresent_eq. simpl.
  now destruct (existsb (sameCategory category) (IgnoreList rd)).
Qed.

Lemma addIgnoreDataByCategory_ignoreBody (rd : ResultsDetails) (category : string) :
  ignoreBody category rd = addIgnoreDataByCategory rd category.
Proof.
  unfold ignoreBody. rewrite addIgnoreDataByCategory_eq, recordIgnore_eq.
  destruct (existsb (sameCategory category) (IgnoreList rd)); [|reflexivity].
  apply set_IgnoreList_same.
Qed.

(** X3. [addIgnoreDataByCategory] leaves the ledger with an ignore entry of
    the category, and doing it twice is doing it once.  It is what [Ignore]
    does to the ledger of its path: when the path has a ledger, the ledger
    found after [Ignore] is [addIgnoreDataByCategory] of the one found
    before. *)
Theorem addIgnoreData_idempotent_and_is_Ignore (rd : ResultsDetails) (category : string) :
  In category (map Category (IgnoreList (addIgnoreDataByCategory rd category))) /\
  addIgnoreDataByCategory (addIgnoreDataByCategory rd category) category
  = addIgnoreDataByCategory rd category /\
  (forall r filePath,
     findResultDetails filePath (Results r) = Some rd ->
     findResultDetails filePath (Results (Ignore r filePath category))
     = Some (addIgnoreDataByCategory rd category)).
Proof.
  assert (Hin : In category (map Category (IgnoreList (addIgnoreDataByCategory rd category)))).
  { rewrite <- addIgnoreDataByCategory_ignoreBody. unfold ignoreBody. simpl.
    apply recordIgnore_records. }
  split; [exact Hin|split].
  - rewrite (addIgnoreDataByCategory_eq (addIgnoreDataByCategory rd category)).
    assert (E : existsb (sameCategory category)
                  (IgnoreList (addIgnoreDataByCategory rd category)) = true).
    { apply in_map_iff in Hin. destruct Hin as [d [Hc Hd]].
      apply existsb_exists. exists d. split; [exact Hd|now apply sameCategory_true]. }
    now rewrite E.
  - intros r filePath Hf.
    rewrite Ignore_Results, findResultDetails_recordIn by reflexivity. rewrite Hf.
    apply findResultDetails_Some in Hf. destruct Hf as [_ Hname].
    apply String.eqb_eq in Hname. rewrite Hname.
    now rewrite addIgnoreDataByCategory_ignoreBody.
Qed.

(** ** Counters count calls *)

Lemma countCalls_cons (f : Call -> bool) (c : Call) (calls : list Call) :
  countCalls f (c :: calls) = ((if f c then 1 else 0) + countCalls f calls)%Z.
Proof.
  unfold countCalls. cbn [filter]. destruct (f c); cbn [List.length]; lia.
Qed.

Lemma countCalls_positive (f : Call -> bool) (calls : list Call) :
  (countCalls f calls > 0)%Z <-> exists c, In c calls /\ f c = true.
Proof.
  unfold countCalls. split.
  - intros H. destruct (filter f calls) as [|c rest] eqn:E; [cbn [List.length] in H; lia|].
    assert (Hin : In c (filter f calls)) by (rewrite E; now left).
    apply filter_In in Hin. now exists c.
  - intros [c [Hin Hf]].
    assert (Hc : In c (filter f calls)) by (apply filter_In; now split).
    destruct (filter f calls); [contradiction|]. cbn [List.length]. lia.
Qed.

Lemma isFailWith_other (category category' : string) (p m : string)
    (cs : list string) (s : Severity) :
  category' <> category -> isFailWith category (CallFail p category' m cs s) = false.
Proof. intros H. simpl. now apply String.eqb_neq. Qed.

Lemma perform_counts (k : Z) (r : DetectionResults) (c : Call) :
  failureCountersWithin k r -> tallyWithin k r -> (k < max_int)%Z ->
  let t := Types (Summary r) in
  let t' := Types (Summary (perform r c)) in
  (Warnings t' = Warnings t + (if isWarn c then 1 else 0) /\
   Ignores t' = Ignores t + (if isIgnore c then 1 else 0) /\
   Filecontent t' = Filecontent t + (if isFailWith "filecontent" c then 1 else 0) /\
   Filesize t' = Filesize t + (if isFailWith "filesize" c then 1 else 0) /\
   Filename_ t' = Filename_ t + (if isFailWith "filename" c then 1 else 0))%Z.
Proof.
  intros (H1 & H2 & H3) (H4 & H5) Hk.
  assert (Hmin : (min_int <= 0)%Z) by (unfold min_int, int_bits; lia).
  cbv zeta.
  destruct c as [p cat m cs s|p cat m cs s|p cat].
  - cbn [perform isWarn isIgnore]. rewrite Fail_Types. unfold updateResultsSummary.
    destruct (String.eqb_spec cat "filecontent") as [->|N1].
    { simpl. rewrite incr_small by lia. lia. }
    destruct (String.eqb_spec cat "filename") as [->|N2].
    { simpl. rewrite incr_small by lia. lia. }
    destruct (String.eqb_spec cat "filesize") as [->|N3].
    { simpl. rewrite incr_small by lia. lia. }
    rewrite !isFailWith_other by assumption. lia.
  - cbn [perform isWarn isIgnore isFailWith]. rewrite Warn_Types. simpl.
    rewrite incr_small by lia. lia.
  - cbn [perform isWarn isIgnore isFailWith]. rewrite Ignore_Types. simpl.
    rewrite incr_small by lia. lia.
Qed.

Lemma run_counts (calls : list Call) :
  forall (k : Z) (r : DetectionResults),
    failureCountersWithin k r -> tallyWithin k r ->
    (k + Z.of_nat (List.length calls) <= max_int)%Z ->
    let t := Types (Summary r) in
    let t' := Types (Summary (run calls r)) in
    (Warnings t' = Warnings t + countCalls isWarn calls /\
     Ignores t' = Ignores t + countCalls isIgnore calls /\
     Filecontent t' = Filecontent t + countCalls (isFailWith "filecontent") calls /\
     Filesize t' = Filesize t + countCalls (isFailWith "filesize") calls /\
     Filename_ t' = Filename_ t + countCalls (isFailWith "filename") calls)%Z.
Proof.
  induction calls as [|c calls IH]; intros k r Hf Ht Hk; cbv zeta.
  - unfold countCalls. simpl. lia.
  - change (run (c :: calls) r) with (run calls (perform r c)).
    rewrite length_cons, Nat2Z.inj_succ in Hk.
    destruct (perform_counts k r c Hf Ht) as (E1 & E2 & E3 & E4 & E5); [lia|].
    destruct (perform_failureCounters k r c Hf) as [Hf' _]; [lia|].
    assert (Ht' : tallyWithin (k + 1) (perform r c)) by (apply perform_tally; [assumption|lia]).
    destruct (IH (k + 1)%Z (perform r c) Hf' Ht') as (F1 & F2 & F3 & F4 & F5); [lia|].
    rewrite !countCalls_cons. lia.
Qed.

Lemma New_within (m : Mode) :
  failureCountersWithin 0 (NewDetectionResults m) /\ tallyWithin 0 (NewDetectionResults m).
Proof. unfold failureCountersWithin, tallyWithin. simpl. lia. Qed.

(** X4. After a run of fewer than 2^63 recording calls on a fresh run state,
    each counter is the number of calls it stands for: the warning counter
    the number of [Warn] calls, the ignore counter the number of [Ignore]
    calls (also when they repeat a category already ignored), and the three
    failure counters the numbers of [Fail] calls with category
    "filecontent", "filesize" and "filename". *)
Theorem counters_count_calls (m : Mode) (calls : list Call) :
  (Z.of_nat (List.length calls) <= max_int)%Z ->
  let t := Types (Summary (run calls (NewDetectionResults m))) in
  Warnings t = countCalls isWarn calls /\
  Ignores t = countCalls isIgnore calls /\
  Filecontent t = countCalls (isFailWith "filecontent") calls /\
  Filesize t = countCalls (isFailWith "filesize") calls /\
  Filename_ t = countCalls (isFailWith "filename") calls.
Proof.
  intros Hlen. destruct (New_within m) as [Hf Ht].
  destruct (run_counts calls 0 (NewDetectionResults m) Hf Ht) as (E1 & E2 & E3 & E4 & E5);
    [lia|].
  simpl in E1, E2, E3, E4, E5. cbv zeta. auto.
Qed.

(** X5. After a run of fewer than 2^63 recording calls on a fresh run state,
    [HasWarnings] is true exactly when there was a [Warn] call, whatever its
    category, [HasIgnores] exactly when there was an [Ignore] call, and
    [HasDetectionMessages] exactly when there was a [Warn] call, an [Ignore]
    call or a [Fail] call with one of the three counted categories. *)
Theorem messages_iff_calls (m : Mode) (calls : list Call) :
  (Z.of_nat (List.length calls) <= max_int)%Z ->
  let r := run calls (NewDetectionResults m) in
  (HasWarnings r = true <-> exists c, In c calls /\ isWarn c = true) /\
  (HasIgnores r = true <-> exists c, In c calls /\ isIgnore c = true) /\
  (HasDetectionMessages r = true <->
   exists c, In c calls /\ (isWarn c = true \/ isIgnore c = true \/ countedFail c)).
Proof.
  intros Hlen r. destruct (New_within m) as [Hf Ht].
  destruct (run_counts calls 0 (NewDetectionResults m) Hf Ht) as (E1 & E2 & _); [lia|].
  destruct (run_failureCounters calls 0 (NewDetectionResults m) Hf) as [_ Hfail]; [lia|].
  fold r in E1, E2, Hfail. simpl in E1, E2.
  assert (Hw : HasWarnings r = true <-> exists c, In c calls /\ isWarn c = true).
  { unfold HasWarnings. rewrite Z.gtb_ltb, Z.ltb_lt, E1, <- countCalls_positive. lia. }
  assert (Hi : HasIgnores r = true <-> exists c, In c calls /\ isIgnore c = true).
  { unfold HasIgnores. rewrite Z.gtb_ltb, Z.ltb_lt, E2, <- countCalls_positive. lia. }
  split; [exact Hw|split; [exact Hi|]].
  unfold HasDetectionMessages. rewrite !orb_true_iff, Hw, Hi, Hfail. split.
  - intros [[[c [Hin Hc]]|[H|[c [Hin Hc]]]]|[c [Hin Hc]]]; try discriminate H;
      exists c; tauto.
  - intros [c [Hin [Hc|[Hc|Hc]]]].
    + left. left. now exists c.
    + right. now exists c.
    + left. right. right. now exists c.
Qed.

(** X6. In every run state, each recording method changes only its own
    counters: [Warn] and [Ignore] leave [HasFailures] (and so [Successful])
    as it was, [Warn] leaves [HasIgnores], [Ignore] leaves [HasWarnings],
    and [Fail] leaves both [HasWarnings] and [HasIgnores]. *)
Theorem recording_changes_only_its_own_counter (r : DetectionResults)
    (filePath : FilePath) (category message : string) (commits : list string)
    (severity : Severity) :
  HasFailures (Warn r filePath category message commits severity) = HasFailures r /\
  Successful (Warn r filePath category message commits severity) = Successful r /\
  HasIgnores (Warn r filePath category message commits severity) = HasIgnores r /\
  HasFailures (Ignore r filePath category) = HasFailures r /\
  Successful (Ignore r filePath category) = Successful r /\
  HasWarnings (Ignore r filePath category) = HasWarnings r /\
  HasWarnings (Fail r filePath category message commits severity) = HasWarnings r /\
  HasIgnores (Fail r filePath category message commits severity) = HasIgnores r.
Proof.
  unfold Successful, HasFailures, HasIgnores, HasWarnings.
  rewrite Warn_Types, Ignore_Types, Fail_Types.
  repeat split; try reflexivity;
    unfold updateResultsSummary;
    repeat (match goal with |- context [if ?b then _ else _] => destruct b end);
    reflexivity.
Qed.

(** ** Ledgers only grow *)

Lemma existsb_name (filePath : FilePath) (l : list ResultsDetails) :
  existsb (fun rd => String.eqb (Filename rd) filePath) l =
  existsb (String.eqb filePath) (map Filename l).
Proof.
  induction l as [|rd rest IH]; simpl; [reflexivity|].
  now rewrite IH, (String.eqb_sym (Filename rd) filePath).
Qed.

Lemma perform_Filenames (r : DetectionResults) (c : Call) :
  map Filename (Results (perform r c)) =
  if existsb (String.eqb (callPath c)) (map Filename (Results r))
  then map Filename (Results r)
  else map Filename (Results r) ++ [callPath c].
Proof.
  rewrite perform_Results.
  destruct c as [p cat m cs s|p cat m cs s|p cat]; cbn [callPath];
    rewrite recordIn_Filenames by reflexivity; now rewrite existsb_name.
Qed.

Lemma existsb_eqb_In (x : string) (l : list string) :
  existsb (String.eqb x) l = true <-> In x l.
Proof.
  rewrite existsb_exists. split.
  - intros [y [Hin Hy]]. apply String.eqb_eq in Hy. now subst.
  - intros Hin. exists x. split; [assumption|apply String.eqb_refl].
Qed.

Lemma existsb_same_members (x : string) (l l' : list string) :
  (forall y, In y l <-> In y l') ->
  existsb (String.eqb x) l = existsb (String.eqb x) l'.
Proof.
  intros H. destruct (existsb (String.eqb x) l') eqn:E.
  - apply existsb_eqb_In. apply H. now apply existsb_eqb_In.
  - apply not_true_iff_false. intros E'. apply existsb_eqb_In in E'.
    apply H in E'. apply existsb_eqb_In in E'. congruence.
Qed.

Lemma firstMentions_same_members (calls : list Call) :
  forall seen seen',
    (forall y, In y seen <-> In y seen') ->
    firstMentions seen calls = firstMentions seen' calls.
Proof.
  induction calls as [|c rest IH]; intros seen seen' H; simpl; [reflexivity|].
  rewrite (existsb_same_members (callPath c) seen seen' H).
  destruct (existsb (String.eqb (callPath c)) seen').
  - now apply IH.
  - f_equal. apply IH. intros y. simpl. rewrite H. tauto.
Qed.

Lemma run_Filenames (calls : list Call) :
  forall r,
    map Filename (Results (run calls r)) =
    map Filename (Results r) ++ firstMentions (map Filename (Results r)) calls.
Proof.
  induction calls as [|c rest IH]; intros r.
  - simpl. now rewrite app_nil_r.
  - change (run (c :: rest) r) with (run rest (perform r c)).
    rewrite IH, perform_Filenames. cbn [firstMentions].
    destruct (existsb (String.eqb (callPath c)) (map Filename (Results r))).
    + reflexivity.
    + rewrite <- app_assoc. cbn [app]. do 2 f_equal.
      apply firstMentions_same_members. intros y.
      rewrite in_app_iff. simpl. tauto.
Qed.

Lemma firstMentions_In (calls : list Call) :
  forall seen p,
    In p (firstMentions seen calls) <->
    ~ In p seen /\ exists c, In c calls /\ callPath c = p.
Proof.
  induction calls as [|c rest IH]; intros seen p; simpl.
  - split; [intros []|intros [_ [c [[] _]]]].
  - destruct (existsb (String.eqb (callPath c)) seen) eqn:E.
    + apply existsb_eqb_In in E. rewrite IH. split.
      * intros [Hn [c' [Hin Hc']]]. split; [assumption|]. exists c'. auto.
      * intros [Hn [c' [[->|Hin] Hc']]].
        -- subst p. contradiction.
        -- split; [assumption|]. now exists c'.
    + apply not_true_iff_false in E. rewrite existsb_eqb_In in E.
      simpl. rewrite IH. simpl. split.
      * intros [<-|[Hn [c' [Hin Hc']]]].
        -- split; [assumption|]. exists c. auto.
        -- split; [tauto|]. exists c'. auto.
      * intros [Hn [c' [[->|Hin] Hc']]].
        -- now left.
        -- destruct (string_dec (callPath c) p) as [->|Hne]; [now left|].
           right. split; [tauto|]. now exists c'.
Qed.

(** X8. After a run on a fresh run state there is a ledger exactly for the
    paths named by some call, one each, and the ledgers stand in the order
    in which their paths were first named. *)
Theorem ledgers_in_order_of_first_mention (m : Mode) (calls : list Call) :
  let r := run calls (NewDetectionResults m) in
  map Filename (Results r) = firstMentions [] calls /\
  (forall p, In p (map Filename (Results r)) <-> exists c, In c calls /\ callPath c = p).
Proof.
  cbv zeta.
  assert (E : map Filename (Results (run calls (NewDetectionResults m)))
              = firstMentions [] calls).
  { rewrite run_Filenames. reflexivity. }
  split; [exact E|].
  intros p. rewrite E, firstMentions_In. simpl. tauto.
Qed.

Lemma merge_outlines (category message : string) (commits : list string)
    (l : list Details) :
  map outline (map (fun d => if sameCategoryAndMessage category message d
                             then set_Commits d (Commits d ++ commits) else d) l) =
  map outline l.
Proof.
  rewrite map_map. apply map_ext. intros d.
  now destruct (sameCategoryAndMessage category message d).
Qed.

Lemma recordDetails_outlines (category message : string) (commits : list string)
    (severity : Severity) (l : list Details) :
  exists added,
    map outline (recordDetails category message commits severity l)
    = map outline l ++ added.
Proof.
  rewrite recordDetails_eq. cbv zeta.
  destruct (existsb (sameCategoryAndMessage category message) l).
  - exists []. now rewrite merge_outlines, app_nil_r.
  - eexists. rewrite map_app, merge_outlines. reflexivity.
Qed.

Lemma recordIgnore_extends (category : string) (l : list Details) :
  exists added, recordIgnore category l = l ++ added.
Proof.
  rewrite recordIgnore_eq. destruct (existsb (sameCategory category) l).
  - exists []. now rewrite app_nil_r.
  - eexists. reflexivity.
Qed.

(** The ledger found under a name after one call, from the one found
    before. *)
Lemma perform_found (r : DetectionResults) (c : Call) (fileName : FilePath)
    (rd : ResultsDetails) :
  findResultDetails fileName (Results r) = Some rd ->
  findResultDetails fileName (Results (perform r c)) =
  Some (if String.eqb fileName (callPath c)
        then match c with
             | CallFail _ cat m cs s => failBody cat m cs s rd
             | CallWarn _ cat m cs s => warnBody cat m cs s rd
             | CallIgnore _ cat => ignoreBody cat rd
             end
        else rd).
Proof.
  intros Hf. rewrite perform_Results.
  pose proof (findResultDetails_Some _ _ _ Hf) as [_ Hname].
  destruct c as [p cat m cs s|p cat m cs s|p cat]; cbn [callPath];
    rewrite findResultDetails_recordIn by reflexivity; rewrite Hf, Hname; reflexivity.
Qed.

Lemma perform_extends (r : DetectionResults) (c : Call) (fileName : FilePath)
    (rd : ResultsDetails) :
  findResultDetails fileName (Results r) = Some rd ->
  exists rd' f w i,
    findResultDetails fileName (Results (perform r c)) = Some rd' /\
    map outline (FailureList rd') = map outline (FailureList rd) ++ f /\
    map outline (WarningList rd') = map outline (WarningList rd) ++ w /\
    map outline (IgnoreList rd') = map outline (IgnoreList rd) ++ i.
Proof.
  intros Hf. rewrite (perform_found r c fileName rd Hf).
  destruct (String.eqb fileName (callPath c)).
  - destruct c as [p cat m cs s|p cat m cs s|p cat].
    + destruct (recordDetails_outlines cat m cs s (FailureList rd)) as [f Ef].
      eexists. exists f, [], []. split; [reflexivity|]. simpl.
      now rewrite Ef, !app_nil_r.
    + destruct (recordDetails_outlines cat m cs s (WarningList rd)) as [f Ef].
      eexists. exists [], f, []. split; [reflexivity|]. simpl.
      now rewrite Ef, !app_nil_r.
    + destruct (recordIgnore_extends cat (IgnoreList rd)) as [f Ef].
      eexists. exists [], [], (map outline f). split; [reflexivity|]. simpl.
      now rewrite Ef, map_app, !app_nil_r.
  - exists rd, [], [], []. now rewrite !app_nil_r.
Qed.

(** X9. Findings are only ever appended.  For a path that has a ledger, any
    further run of recording calls leaves it with a ledger whose failures,
    warnings and ignores begin with the ones it had, in the same order and
    with the same category, message and severity. *)
Theorem findings_are_only_appended (calls : list Call) :
  forall (r : DetectionResults) (fileName : FilePath) (rd : ResultsDetails),
    findResultDetails fileName (Results r) = Some rd ->
    exists rd' f w i,
      findResultDetails fileName (Results (run calls r)) = Some rd' /\
      map outline (FailureList rd') = map outline (FailureList rd) ++ f /\
      map outline (WarningList rd') = map outline (WarningList rd) ++ w /\
      map outline (IgnoreList rd') = map outline (IgnoreList rd) ++ i.
Proof.
  induction calls as [|c rest IH]; intros r fileName rd Hf.
  - exists rd, [], [], []. now rewrite !app_nil_r.
  - change (run (c :: rest) r) with (run rest (perform r c)).
    destruct (perform_extends r c fileName rd Hf) as (rd1 & f1 & w1 & i1 & H1 & Ef1 & Ew1 & Ei1).
    destruct (IH (perform r c) fileName rd1 H1) as (rd2 & f2 & w2 & i2 & H2 & Ef2 & Ew2 & Ei2).
    exists rd2, (f1 ++ f2), (w1 ++ w2), (i1 ++ i2).
    split; [exact H2|].
    now rewrite Ef2, Ew2, Ei2, Ef1, Ew1, Ei1, <- !app_assoc.
Qed.

(** X10. One call changes at most one list of one ledger.  For a path that
    has a ledger, the ledger found after a call has the same failures
    (category, message, severity, in order) unless the call is a [Fail] for
    that path, the same warnings unless it is a [Warn] for that path, and
    the same ignores unless it is an [Ignore] for that path. *)
Theorem call_changes_one_list_of_one_ledger (r : DetectionResults) (c : Call)
    (fileName : FilePath) (rd : ResultsDetails) :
  findResultDetails fileName (Results r) = Some rd ->
  exists rd',
    findResultDetails fileName (Results (perform r c)) = Some rd' /\
    (fileName <> callPath c \/ isFail c = false ->
     map outline (FailureList rd') = map outline (FailureList rd)) /\
    (fileName <> callPath c \/ isWarn c = false ->
     map outline (WarningList rd') = map outline (WarningList rd)) /\
    (fileName <> callPath c \/ isIgnore c = false ->
     map outline (IgnoreList rd') = map outline (IgnoreList rd)).
Proof.
  intros Hf. rewrite (perform_found r c fileName rd Hf).
  eexists. split; [reflexivity|].
  destruct (String.eqb_spec fileName (callPath c)) as [E|E].
  - destruct c as [p cat m cs s|p cat m cs s|p cat]; simpl;
      repeat split; intros [H|H]; try reflexivity; try discriminate H; contradiction.
  - repeat split; reflexivity.
Qed.

(** ** What the reports print *)

Lemma prints_ret {A : Type} (w : World) (a : A) : prints (ret a) w a [].
Proof. unfold prints, ret. destruct w. simpl. now rewrite app_nil_r. Qed.

Lemma prints_emit (w : World) (e : Event) : prints (emit e) w tt [e].
Proof. reflexivity. Qed.

Lemma prints_bind {A B : Type} (m : M A) (k : A -> M B) (w : World) (a : A) (b : B)
    (evs1 evs2 : list Event) :
  prints m w a evs1 ->
  prints (k a) (mkWorld (results w) (stdout w ++ evs1)) b evs2 ->
  prints (bind m k) w b (evs1 ++ evs2).
Proof.
  unfold prints, bind. intros -> H. rewrite H. simpl. now rewrite app_assoc.
Qed.

Lemma prints_returns {A : Type} (m : M A) (w : World) (a : A) :
  returns m w a -> prints m w a [].
Proof.
  unfold returns, prints. intros ->. destruct w. simpl. now rewrite app_nil_r.
Qed.

Lemma prints_nothing {A : Type} (m : M A) (w : World) (a : A) :
  prints m w a [] -> m w = Ok (a, w).
Proof.
  unfold prints. intros ->. destruct w. simpl. now rewrite app_nil_r.
Qed.

Lemma returns_collectWarnings (w : World) (l : list ResultsDetails) :
  incl l (Results (results w)) ->
  forall paths data,
    returns (collectWarnings l paths data) w
            (paths ++ map Filename (filter hasWarningEntries l),
             data ++ flat_map (warningRows (results w)) (filter hasWarningEntries l)).
Proof.
  induction l as [|rd rest IH]; intros Hincl paths data; simpl.
  - rewrite !app_nil_r. apply returns_ret.
  - assert (Hrest : incl rest (Results (results w))) by (intros x Hx; apply Hincl; now right).
    fold (hasWarningEntries rd). destruct (hasWarningEntries rd).
    + destruct (findResultDetails_In (Filename rd) (Results (results w))) as [found Hfound].
      { apply in_map. apply Hincl. now left. }
      eapply returns_bind; [apply (returns_ReportFileWarnings w _ found Hfound)|].
      simpl. unfold warningRows at 1. rewrite Hfound.
      replace (paths ++ Filename rd :: map Filename (filter hasWarningEntries rest))
        with ((paths ++ [Filename rd]) ++ map Filename (filter hasWarningEntries rest))
        by now rewrite <- app_assoc.
      rewrite app_assoc. apply (IH Hrest).
    + apply (IH Hrest).
Qed.

Lemma returns_collectFailures (w : World) (l : list ResultsDetails) :
  incl l (Results (results w)) ->
  forall paths data,
    returns (collectFailures l paths data) w
            (paths ++ map Filename (filter hasFailuresOrIgnores l),
             data ++ flat_map (failureRows (results w)) (filter hasFailuresOrIgnores l)).
Proof.
  induction l as [|rd rest IH]; intros Hincl paths data; simpl.
  - rewrite !app_nil_r. apply returns_ret.
  - assert (Hrest : incl rest (Results (results w))) by (intros x Hx; apply Hincl; now right).
    fold (hasFailuresOrIgnores rd). destruct (hasFailuresOrIgnores rd).
    + destruct (findResultDetails_In (Filename rd) (Results (results w))) as [found Hfound].
      { apply in_map. apply Hincl. now left. }
      eapply returns_bind; [apply (returns_ReportFileFailures w _ found Hfound)|].
      simpl. unfold failureRows at 1. rewrite Hfound.
      replace (paths ++ Filename rd :: map Filename (filter hasFailuresOrIgnores rest))
        with ((paths ++ [Filename rd]) ++ map Filename (filter hasFailuresOrIgnores rest))
        by now rewrite <- app_assoc.
      rewrite app_assoc. apply (IH Hrest).
    + apply (IH Hrest).
Qed.

Lemma flat_map_filter_rows {A B : Type} (f : A -> bool) (g : A -> list B) (l : list A) :
  (forall a, f a = false -> g a = []) ->
  flat_map g (filter f l) = flat_map g l.
Proof.
  intros H. induction l as [|a rest IH]; simpl; [reflexivity|].
  destruct (f a) eqn:E; simpl.
  - now rewrite IH.
  - now rewrite (H a E), IH.
Qed.

Lemma flat_map_ext_In {A B : Type} (f g : A -> list B) (l : list A) :
  (forall a, In a l -> f a = g a) -> flat_map f l = flat_map g l.
Proof.
  induction l as [|a rest IH]; intros H; simpl; [reflexivity|].
  rewrite (H a) by now left. f_equal. apply IH. intros x Hx. apply H. now right.
Qed.

Lemma warning_rows_table (r : DetectionResults) :
  NoDup (map Filename (Results r)) ->
  flat_map (warningRows r) (filter hasWarningEntries (Results r)) = warningTable r.
Proof.
  intros Hn. unfold warningTable.
  rewrite <- (flat_map_filter_rows hasWarningEntries
                (fun rd => map (rowOf (Filename rd)) (WarningList rd))).
  - apply flat_map_ext_In. intros rd Hin. apply filter_In in Hin. destruct Hin as [Hin _].
    unfold warningRows. now rewrite (findResultDetails_unique _ rd Hn Hin).
  - intros rd H. unfold hasWarningEntries in H.
    destruct (WarningList rd); [reflexivity|discriminate H].
Qed.

Lemma failure_rows_table (r : DetectionResults) :
  NoDup (map Filename (Results r)) ->
  flat_map (failureRows r) (filter hasFailuresOrIgnores (Results r)) = failureTable r.
Proof.
  intros Hn. unfold failureTable.
  rewrite <- (flat_map_filter_rows hasFailuresOrIgnores
                (fun rd => map (rowOf (Filename rd)) (FailureList rd))).
  - apply flat_map_ext_In. intros rd Hin. apply filter_In in Hin. destruct Hin as [Hin _].
    unfold failureRows. now rewrite (findResultDetails_unique _ rd Hn Hin).
  - intros rd H. unfold hasFailuresOrIgnores in H.
    destruct (FailureList rd); [reflexivity|discriminate H].
Qed.

(** X11. With ledgers of distinct paths, [ReportWarnings] does one of two
    things.  When the warning counter is positive it prints the banner and
    one table holding a row for every stored warning, ledger by ledger in
    order, and returns the review hint.  Otherwise it prints nothing at all
    and returns the empty string. *)
Theorem ReportWarnings_prints_all_warnings_or_nothing (w : World) :
  NoDup (map Filename (Results (results w))) ->
  ReportWarnings w =
  if (Warnings (Types (Summary (results w))) >? 0)%Z
  then Ok ((reviewHint ++ newline)%string,
           mkWorld (results w)
             (stdout w ++ [Print warningsBanner;
                           RenderTable ["File"; "Warnings"; "Severity"]
                             (warningTable (results w))]))
  else Ok ("", w).
Proof.
  intros Hn. unfold ReportWarnings, bind at 1, receiver at 1.
  pose proof (returns_collectWarnings w (Results (results w)) (incl_refl _) [] []) as Hc.
  unfold returns in Hc. unfold bind at 1. rewrite Hc. cbn [app].
  rewrite (warning_rows_table _ Hn).
  unfold bind at 1, receiver.
  destruct (Warnings (Types (Summary (results w))) >? 0)%Z; [|reflexivity].
  apply (prints_bind _ _ w tt _ [_] [_]); [apply prints_emit|].
  apply (prints_bind _ _ _ tt _ [_] []); [apply prints_emit|].
  apply prints_ret.
Qed.

Section ReportOutput.

Variable CollectiveSHA256Hash : list string -> string.
Variable GOOS : string.
Variable yaml_Marshal_config : IgnoreConfig -> string * option string.
Variable yaml_Marshal_rc : list IgnoreConfig -> string.
Variable git_add_talismanrc : string * option string.

Lemma Report_unfold (promptContext : PromptContext) (w : World) :
  Report CollectiveSHA256Hash GOOS yaml_Marshal_config yaml_Marshal_rc
    git_add_talismanrc promptContext w =
  ((if HasFailures (results w)
    then
      emit (Print reportBanner) ;;;
      emit (RenderTable ["File"; "Errors"; "Severity"]
              (flat_map (failureRows (results w))
                 (filter hasFailuresOrIgnores (Results (results w))))) ;;;
      emit (Print newline) ;;;
      suggestTalismanRC CollectiveSHA256Hash GOOS yaml_Marshal_config yaml_Marshal_rc
        git_add_talismanrc
        (UniqueItems (map Filename (filter hasFailuresOrIgnores (Results (results w)))))
        promptContext
    else ret tt) ;;;
   ret "") w.
Proof.
  unfold Report, bind at 1, receiver at 1.
  pose proof (returns_collectFailures w (Results (results w)) (incl_refl _) [] []) as Hc.
  unfold returns in Hc. unfold bind at 1. rewrite Hc. cbn [app].
  unfold bind at 1, receiver. reflexivity.
Qed.

(** X12. Without a counted failure [Report] does nothing: when [HasFailures]
    is false it prints nothing, starts no suggestion workflow and returns
    the empty string, whatever warnings, ignores or uncounted failures are
    stored. *)
Theorem Report_is_silent_without_failures (promptContext : PromptContext) (w : World) :
  HasFailures (results w) = false ->
  Report CollectiveSHA256Hash GOOS yaml_Marshal_config yaml_Marshal_rc
    git_add_talismanrc promptContext w = Ok ("", w).
Proof.
  intros H. rewrite Report_unfold, H. reflexivity.
Qed.

Lemma prints_printTalismanIgnoreSuggestion (entries : list IgnoreConfig) (w : World) :
  prints (printTalismanIgnoreSuggestion yaml_Marshal_rc entries) w tt
         [Print (suggestString ++ newline); Print (yaml_Marshal_rc entries ++ newline)].
Proof.
  unfold printTalismanIgnoreSuggestion.
  apply (prints_bind _ _ w tt _ [_] [_]); [apply prints_emit|apply prints_emit].
Qed.

(** X13. With a counted failure, ledgers of distinct paths, and a prompt
    context that is not interactive or a Windows host, [Report] prints the
    banner, one table with a row for every stored failure, an empty line,
    the hint and the marshalled ignore entries, one entry for each ledger
    that has a failure or an ignore, and returns the empty string.  It asks
    nothing and persists nothing: no entry is added to the configuration and
    no command is run. *)
Theorem Report_prints_suggestion_when_not_interactive
    (promptContext : PromptContext) (w : World) :
  HasFailures (results w) = true ->
  Interactive promptContext = false \/ GOOS = "windows" ->
  NoDup (map Filename (Results (results w))) ->
  Report CollectiveSHA256Hash GOOS yaml_Marshal_config yaml_Marshal_rc
    git_add_talismanrc promptContext w =
  Ok ("",
      mkWorld (results w)
        (stdout w ++
         [Print reportBanner;
          RenderTable ["File"; "Errors"; "Severity"] (failureTable (results w));
          Print newline;
          Print (suggestString ++ newline);
          Print (yaml_Marshal_rc
                   (buildEntries CollectiveSHA256Hash (mode (results w))
                      (UniqueItems
                         (map Filename
                            (filter hasFailuresOrIgnores (Results (results w))))))
                 ++ newline)])).
Proof.
  intros Hf Hmode Hn. rewrite Report_unfold, Hf, (failure_rows_table _ Hn).
  assert (Hoff : (Interactive promptContext && negb (String.eqb GOOS "windows"))%bool = false).
  { destruct Hmode as [->| ->]; [reflexivity|]. simpl. apply andb_false_r. }
  apply (prints_bind _ _ w tt _ [_; _; _; _; _] []); [|apply prints_ret].
  apply (prints_bind _ _ w tt _ [_] [_; _; _; _]); [apply prints_emit|].
  apply (prints_bind _ _ _ tt _ [_] [_; _; _]); [apply prints_emit|].
  apply (prints_bind _ _ _ tt _ [_] [_; _]); [apply prints_emit|].
  unfold suggestTalismanRC.
  apply (prints_bind _ _ _ (results w) _ [] [_; _]);
    [apply prints_returns; reflexivity|].
  unfold offerEntries. rewrite Hoff.
  apply prints_printTalismanIgnoreSuggestion.
Qed.

Lemma prints_confirm (promptContext : PromptContext) (config : IgnoreConfig) (w : World) :
  prints (confirm yaml_Marshal_config config promptContext) w
         (accepted promptContext config)
         (confirmEvents yaml_Marshal_config promptContext config).
Proof.
  unfold confirm, confirmEvents.
  destruct (yaml_Marshal_config config) as [bytes [e|]]; cbn [fst snd].
  - apply (prints_bind _ _ w tt _ [_] [_; _; _]); [apply prints_emit|].
    apply (prints_bind _ _ _ tt _ [_] [_; _]); [apply prints_emit|].
    apply (prints_bind _ _ _ tt _ [_] [_]); [apply prints_emit|].
    apply (prints_bind _ _ _ tt _ [_] []); [apply prints_emit|].
    apply prints_ret.
  - apply (prints_bind _ _ w tt _ [] [_; _; _]); [apply prints_ret|].
    apply (prints_bind _ _ _ tt _ [_] [_; _]); [apply prints_emit|].
    apply (prints_bind _ _ _ tt _ [_] [_]); [apply prints_emit|].
    apply (prints_bind _ _ _ tt _ [_] []); [apply prints_emit|].
    apply prints_ret.
Qed.

Lemma prints_confirmEach (promptContext : PromptContext) (configs : list IgnoreConfig) :
  forall (confirmed : list IgnoreConfig) (w : World),
    prints (confirmEach yaml_Marshal_config configs confirmed promptContext) w
           (confirmed ++ filter (accepted promptContext) configs)
           (flat_map (confirmEvents yaml_Marshal_config promptContext) configs).
Proof.
  induction configs as [|config rest IH]; intros confirmed w; simpl.
  - rewrite app_nil_r. apply prints_ret.
  - eapply prints_bind; [apply prints_confirm|].
    destruct (accepted promptContext config).
    + replace (confirmed ++ config :: filter (accepted promptContext) rest)
        with ((confirmed ++ [config]) ++ filter (accepted promptContext) rest)
        by now rewrite <- app_assoc.
      apply IH.
    + apply IH.
Qed.

Lemma prints_getUserConfirmation (promptContext : PromptContext)
    (configs : list IgnoreConfig) (w : World) :
  prints (getUserConfirmation yaml_Marshal_config configs promptContext) w
         (filter (accepted promptContext) configs)
         ((if (List.length configs =? 0)%nat
           then []
           else [Print ("==== Interactively adding to talismanrc ====" ++ newline)])
          ++ flat_map (confirmEvents yaml_Marshal_config promptContext) configs).
Proof.
  unfold getUserConfirmation. apply prints_bind with (a := tt).
  - destruct (List.length configs =? 0)%nat; simpl; [apply prints_ret|apply prints_emit].
  - apply (prints_confirmEach promptContext configs []).
Qed.

Lemma prints_offerEntries_interactive (m : Mode) (entries : list IgnoreConfig)
    (promptContext : PromptContext) (w : World) :
  (Interactive promptContext && negb (String.eqb GOOS "windows"))%bool = true ->
  prints (offerEntries GOOS yaml_Marshal_config yaml_Marshal_rc git_add_talismanrc
            m entries promptContext) w tt
         (((if (List.length entries =? 0)%nat
            then []
            else [Print ("==== Interactively adding to talismanrc ====" ++ newline)])
           ++ flat_map (confirmEvents yaml_Marshal_config promptContext) entries)
          ++ [AddIgnores m (filter (accepted promptContext) entries);
              ExecCommand ["git"; "add"; ".talismanrc"]]
          ++ match snd git_add_talismanrc with
             | Some _ =>
                 [LogError ("Error appending to talismanrc "
                            ++ format_v_bytes (fst git_add_talismanrc))]
             | None => []
             end).
Proof.
  intros Hon. unfold offerEntries. rewrite Hon.
  eapply prints_bind; [apply prints_getUserConfirmation|].
  apply (prints_bind _ _ _ tt _ [_] _); [apply prints_emit|].
  destruct git_add_talismanrc as [output [e|]]; cbn [fst snd].
  - apply (prints_bind _ _ _ tt _ [_] [_]); [apply prints_emit|apply prints_emit].
  - apply (prints_bind _ _ _ tt _ [_] []); [apply prints_emit|apply prints_ret].
Qed.

(** X14. In an interactive prompt context on a host other than Windows,
    [suggestTalismanRC] asks about every entry exactly once, in order,
    printing it first (after a heading when there is any entry at all).  It
    then adds to the configuration exactly the entries whose question was
    answered yes, in their order, and runs [git add .talismanrc]: both
    also when no entry was confirmed.  After that it logs one error when the
    command failed and does nothing more when it succeeded. *)
Theorem interactive_suggestion_adds_confirmed_entries
    (filePaths : list string) (promptContext : PromptContext) (w : World) :
  Interactive promptContext = true ->
  GOOS <> "windows" ->
  let entries := buildEntries CollectiveSHA256Hash (mode (results w)) filePaths in
  exists logged,
    suggestTalismanRC CollectiveSHA256Hash GOOS yaml_Marshal_config yaml_Marshal_rc
      git_add_talismanrc filePaths promptContext w =
    Ok (tt,
        mkWorld (results w)
          (stdout w ++
           ((if (List.length entries =? 0)%nat
             then []
             else [Print ("==== Interactively adding to talismanrc ====" ++ newline)])
            ++ flat_map (confirmEvents yaml_Marshal_config promptContext) entries
            ++ [AddIgnores (mode (results w)) (filter (accepted promptContext) entries);
                ExecCommand ["git"; "add"; ".talismanrc"]]
            ++ logged))) /\
    match snd git_add_talismanrc with
    | Some _ => exists text, logged = [LogError text]
    | None => logged = []
    end.
Proof.
  intros Hi Hos entries.
  assert (Hon : (Interactive promptContext && negb (String.eqb GOOS "windows"))%bool = true).
  { rewrite Hi. simpl. apply negb_true_iff. now apply String.eqb_neq. }
  pose proof (prints_offerEntries_interactive (mode (results w)) entries promptContext w Hon)
    as Hrun.
  unfold prints in Hrun.
  eexists. split.
  - unfold suggestTalismanRC, bind, receiver. fold entries.
    rewrite Hrun. do 3 f_equal. rewrite <- app_assoc. reflexivity.
  - destruct (snd git_add_talismanrc); [eexists|]; reflexivity.
Qed.

Lemma prints_offerEntries (m : Mode) (entries : list IgnoreConfig)
    (promptContext : PromptContext) (w : World) :
  prints (offerEntries GOOS yaml_Marshal_config yaml_Marshal_rc git_add_talismanrc
            m entries promptContext) w tt
         (suggestionEvents GOOS yaml_Marshal_config yaml_Marshal_rc git_add_talismanrc
            m entries promptContext).
Proof.
  unfold suggestionEvents.
  destruct (Interactive promptContext && negb (String.eqb GOOS "windows"))%bool eqn:Hon.
  - now apply prints_offerEntries_interactive.
  - unfold offerEntries. rewrite Hon. apply prints_printTalismanIgnoreSuggestion.
Qed.

Lemma ReportWarnings_unfold (w : World) :
  ReportWarnings w =
  if (Warnings (Types (Summary (results w))) >? 0)%Z
  then Ok ((reviewHint ++ newline)%string,
           mkWorld (results w)
             (stdout w ++ [Print warningsBanner;
                           RenderTable ["File"; "Warnings"; "Severity"]
                             (flat_map (warningRows (results w))
                                (filter hasWarningEntries (Results (results w))))]))
  else Ok ("", w).
Proof.
  unfold ReportWarnings, bind at 1, receiver at 1.
  pose proof (returns_collectWarnings w (Results (results w)) (incl_refl _) [] []) as Hc.
  unfold returns in Hc. unfold bind at 1. rewrite Hc. cbn [app].
  unfold bind at 1, receiver.
  destruct (Warnings (Types (Summary (results w))) >? 0)%Z; [|reflexivity].
  apply (prints_bind _ _ w tt _ [_] [_]); [apply prints_emit|].
  apply (prints_bind _ _ _ tt _ [_] []); [apply prints_emit|].
  apply prints_ret.
Qed.

(** C10, as amended. In every run state and for every prompt context,
    [Report] returns the empty string, leaves the run state alone and
    appends to standard output exactly this: nothing when [HasFailures] is
    false; otherwise the banner, one table of the failure rows of every
    ledger that has a failure or an ignore, an empty line, and what the
    suggestion workflow does with one entry for each of those ledgers.
    [ReportWarnings] returns the review hint followed by a line break, after
    printing the banner and the table of warning rows, when the warning
    counter is greater than zero, and the empty string, printing nothing,
    otherwise: so its string is non-empty exactly when the counter is
    greater than zero, and never holds a table row.  With ledgers of
    distinct paths the two tables are the rows of all stored failures and
    of all stored warnings. *)
Theorem Report_prints_and_returns_empty_string (promptContext : PromptContext) (w : World) :
  let r := results w in
  let ledgers := filter hasFailuresOrIgnores (Results r) in
  Report CollectiveSHA256Hash GOOS yaml_Marshal_config yaml_Marshal_rc
    git_add_talismanrc promptContext w =
  Ok ("",
      mkWorld r
        (stdout w ++
         if HasFailures r
         then
           [Print reportBanner;
            RenderTable ["File"; "Errors"; "Severity"] (flat_map (failureRows r) ledgers);
            Print newline]
           ++ suggestionEvents GOOS yaml_Marshal_config yaml_Marshal_rc git_add_talismanrc
                (mode r)
                (buildEntries CollectiveSHA256Hash (mode r)
                   (UniqueItems (map Filename ledgers)))
                promptContext
         else [])) /\
  ReportWarnings w =
  (if (Warnings (Types (Summary r)) >? 0)%Z
   then Ok ((reviewHint ++ newline)%string,
            mkWorld r
              (stdout w ++ [Print warningsBanner;
                            RenderTable ["File"; "Warnings"; "Severity"]
                              (flat_map (warningRows r)
                                 (filter hasWarningEntries (Results r)))]))
   else Ok ("", w)) /\
  (exists s w',
     ReportWarnings w = Ok (s, w') /\
     (s <> "" <-> (0 < Warnings (Types (Summary r)))%Z) /\
     (s = "" \/ s = (reviewHint ++ newline)%string)) /\
  (NoDup (map Filename (Results r)) ->
   flat_map (failureRows r) ledgers = failureTable r /\
   flat_map (warningRows r) (filter hasWarningEntries (Results r)) = warningTable r).
Proof.
  cbv zeta. split; [|split; [|split]].
  - rewrite Report_unfold.
    destruct (HasFailures (results w)).
    + match goal with
      | |- _ = Ok (_, mkWorld _ (_ ++ ?evs)) => rewrite <- (app_nil_r evs)
      end.
      apply (prints_bind _ _ w tt _ _ []); [|apply prints_ret].
      apply (prints_bind _ _ w tt _ [_] (_ :: _ :: _)); [apply prints_emit|].
      apply (prints_bind _ _ _ tt _ [_] (_ :: _)); [apply prints_emit|].
      apply (prints_bind _ _ _ tt _ [_] _); [apply prints_emit|].
      unfold suggestTalismanRC.
      apply (prints_bind _ _ _ (results w) _ [] _); [apply prints_returns; reflexivity|].
      apply prints_offerEntries.
    + destruct w as [r out]. cbn. now rewrite app_nil_r.
  - apply ReportWarnings_unfold.
  - rewrite ReportWarnings_unfold.
    destruct (Warnings (Types (Summary (results w))) >? 0)%Z eqn:Hw.
    + apply Z.gtb_lt in Hw. do 2 eexists. split; [reflexivity|].
      split; [|now right]. split; [intros _; exact Hw|intros _; discriminate].
    + rewrite Z.gtb_ltb in Hw. apply Z.ltb_ge in Hw. do 2 eexists. split; [reflexivity|].
      split; [|now left]. split; [congruence|lia].
  - intros Hn. split; [now apply failure_rows_table|now apply warning_rows_table].
Qed.

End ReportOutput.

(** ** Sizes of what is rendered *)

Lemma length_append (a b : string) :
  String.length (a ++ b) = String.length a + String.length b.
Proof. induction a as [|c a IH]; simpl; [reflexivity|now rewrite IH]. Qed.

Lemma length_substring (s : string) :
  forall n m, n + m <= String.length s -> String.length (substring n m s) = m.
Proof.
  induction s as [|c s IH]; intros n m H; simpl in H.
  - assert (n = 0) by lia. assert (m = 0) by lia. now subst.
  - destruct n as [|n]; simpl.
    + destruct m as [|m]; [reflexivity|]. simpl. f_equal. apply IH. lia.
    + apply IH. lia.
Qed.

Lemma renderedMessage_length (message : string) :
  String.length (renderedMessage message) =
  if (150 <? String.length message)%nat then 151 else String.length message.
Proof.
  unfold renderedMessage.
  destruct (150 <? String.length message)%nat eqn:E; [|reflexivity].
  apply Nat.ltb_lt in E.
  rewrite !length_append, !length_substring by lia. reflexivity.
Qed.

(** X15. Rows have three columns and bounded messages.  For the ledger found
    under a path, [ReportFileFailures] and [ReportFileWarnings] return as
    many rows as the ledger has failures, respectively warnings; every row
    is the path, a message and a severity text, and the message has at most
    151 bytes: exactly 151 when the stored message has more than 150, and
    the stored length otherwise. *)
Theorem rows_have_bounded_messages (w : World) (filePath : FilePath)
    (rd : ResultsDetails) :
  findResultDetails filePath (Results (results w)) = Some rd ->
  exists failureData warningData,
    ReportFileFailures filePath w = Ok (failureData, w) /\
    ReportFileWarnings filePath w = Ok (warningData, w) /\
    List.length failureData = List.length (FailureList rd) /\
    List.length warningData = List.length (WarningList rd) /\
    Forall2 (fun d row =>
               exists message,
                 row = [filePath; message; Severity_String (Severity_ d)] /\
                 String.length message <= 151 /\
                 String.length message =
                 if (150 <? String.length (Message d))%nat
                 then 151 else String.length (Message d))
            (FailureList rd ++ WarningList rd) (failureData ++ warningData).
Proof.
  intros Hf.
  exists (map (rowOf filePath) (FailureList rd)), (map (rowOf filePath) (WarningList rd)).
  split; [now apply returns_ReportFileFailures|].
  split; [now apply returns_ReportFileWarnings|].
  rewrite !length_map. split; [reflexivity|split; [reflexivity|]].
  rewrite <- map_app.
  induction (FailureList rd ++ WarningList rd) as [|d rest IH]; simpl; constructor.
  - exists (renderedMessage (Message d)). split; [reflexivity|].
    rewrite renderedMessage_length.
    destruct (150 <? String.length (Message d))%nat eqn:E.
    + split; [lia|reflexivity].
    + apply Nat.ltb_ge in E. split; [lia|reflexivity].
  - exact IH.
Qed.

(** ** A report is never empty *)

Lemma failureStored_table (filePath : FilePath) (category message : string)
    (r : DetectionResults) :
  failureStored filePath category message r -> failureTable r <> [].
Proof.
  intros (rd & d & Hf & Hd & _).
  apply findResultDetails_Some in Hf. destruct Hf as [Hin _].
  unfold failureTable. intros E.
  assert (Hrow : In (rowOf (Filename rd) d)
                    (flat_map (fun rd => map (rowOf (Filename rd)) (FailureList rd))
                       (Results r))).
  { apply in_flat_map. exists rd. split; [exact Hin|]. now apply in_map. }
  rewrite E in Hrow. contradiction.
Qed.

(** X16. Whenever a run of fewer than 2^63 recording calls on a fresh run
    state ends with [HasFailures] true, some ledger holds a failure, so the
    table that [Report] then prints has at least one row. *)
Theorem failures_reported_are_stored (m : Mode) (calls : list Call) :
  (Z.of_nat (List.length calls) <= max_int)%Z ->
  HasFailures (run calls (NewDetectionResults m)) = true ->
  failureTable (run calls (NewDetectionResults m)) <> [] /\
  exists rd, In rd (Results (run calls (NewDetectionResults m))) /\ FailureList rd <> [].
Proof.
  intros Hlen Hf.
  destruct (New_within m) as [Hb _].
  destruct (run_failureCounters calls 0 (NewDetectionResults m) Hb) as [_ Hiff]; [lia|].
  apply Hiff in Hf. destruct Hf as [Hf|[c [Hin Hc]]]; [discriminate Hf|].
  destruct c as [p cat msg cs s| |]; try contradiction.
  pose proof (run_failureStored p cat msg cs s calls (NewDetectionResults m) Hin) as Hs.
  split; [now apply (failureStored_table p cat msg)|].
  destruct Hs as (rd & d & Hfind & Hd & _).
  apply findResultDetails_Some in Hfind. destruct Hfind as [Hrd _].
  exists rd. split; [exact Hrd|]. intros E. rewrite E in Hd. contradiction.
Qed.

(** ** The further theorems at work on examples *)

Lemma exampleWorld_distinct_paths :
  NoDup (map Filename (Results (results exampleWorld))).
Proof.
  exact (proj1 (run_wellFormed exampleCalls _ (New_wellFormed exampleMode))).
Qed.


Lemma getFailureData_finds_or_inserts_witness :
  ~ In ("filesize", "too big") (map key (FailureList exampleLedger)) /\
  snd (getFailureDataByCategoryAndMessage exampleLedger "too big" "filesize")
  = set_FailureList exampleLedger
      (FailureList exampleLedger ++ [mkDetails "filesize" "too big" [] Low]) /\
  NoDup (map key (FailureList exampleLedger)) /\
  NoDup (map key (FailureList
                    (snd (getFailureDataByCategoryAndMessage exampleLedger
                            "too big" "filesize")))).
Proof.
  assert (H1 : ~ In ("filesize", "too big") (map key (FailureList exampleLedger))).
  { simpl. intros [H|[]]. discriminate H. }
  assert (H2 : NoDup (map key (FailureList exampleLedger))).
  { simpl. apply NoDup_cons; [intros []|apply NoDup_nil]. }
  pose proof (getFailureData_finds_or_inserts exampleLedger "too big" "filesize") as H.
  cbv zeta in H. destruct H as (_ & _ & _ & _ & _ & Hnew & Hnodup).
  split; [exact H1|]. split; [exact (Hnew H1)|]. split; [exact H2|exact (Hnodup H2)].
Defined.

Lemma addIgnoreData_idempotent_and_is_Ignore_witness :
  findResultDetails "a.pem" (Results (results exampleWorld)) = Some exampleLedger /\
  findResultDetails "a.pem" (Results (Ignore (results exampleWorld) "a.pem" "filesize"))
  = Some (addIgnoreDataByCategory exampleLedger "filesize").
Proof.
  assert (H : findResultDetails "a.pem" (Results (results exampleWorld)) = Some exampleLedger)
    by reflexivity.
  split; [exact H|].
  exact (proj2 (proj2 (addIgnoreData_idempotent_and_is_Ignore exampleLedger "filesize"))
           (results exampleWorld) "a.pem" H).
Defined.

Lemma counters_count_calls_witness :
  (Z.of_nat (List.length exampleCalls) <= max_int)%Z /\
  Warnings (Types (Summary (run exampleCalls (NewDetectionResults exampleMode))))
  = countCalls isWarn exampleCalls.
Proof.
  assert (H : (Z.of_nat (List.length exampleCalls) <= max_int)%Z).
  { simpl. unfold max_int, int_bits. lia. }
  split; [exact H|].
  exact (proj1 (counters_count_calls exampleMode exampleCalls H)).
Defined.

Lemma messages_iff_calls_witness :
  (Z.of_nat (List.length exampleCalls) <= max_int)%Z /\
  (HasWarnings (run exampleCalls (NewDetectionResults exampleMode)) = true <->
   exists c, In c exampleCalls /\ isWarn c = true).
Proof.
  assert (H : (Z.of_nat (List.length exampleCalls) <= max_int)%Z).
  { simpl. unfold max_int, int_bits. lia. }
  split; [exact H|].
  exact (proj1 (messages_iff_calls exampleMode exampleCalls H)).
Defined.

Lemma findings_are_only_appended_witness :
  findResultDetails "a.pem" (Results (results exampleWorld)) = Some exampleLedger /\
  exists rd' f w i,
    findResultDetails "a.pem"
      (Results (run (endToEndCalls ["c2"] Low) (results exampleWorld))) = Some rd' /\
    map outline (FailureList rd') = map outline (FailureList exampleLedger) ++ f /\
    map outline (WarningList rd') = map outline (WarningList exampleLedger) ++ w /\
    map outline (IgnoreList rd') = map outline (IgnoreList exampleLedger) ++ i.
Proof.
  assert (H : findResultDetails "a.pem" (Results (results exampleWorld)) = Some exampleLedger)
    by reflexivity.
  split; [exact H|].
  exact (findings_are_only_appended (endToEndCalls ["c2"] Low) (results exampleWorld)
           "a.pem" exampleLedger H).
Defined.

Lemma call_changes_one_list_of_one_ledger_witness :
  findResultDetails "a.pem" (Results (results exampleWorld)) = Some exampleLedger /\
  exists rd',
    findResultDetails "a.pem"
      (Results (perform (results exampleWorld)
                  (CallWarn "a.pem" "filecontent" "again" [] High))) = Some rd' /\
    map outline (FailureList rd') = map outline (FailureList exampleLedger) /\
    map outline (IgnoreList rd') = map outline (IgnoreList exampleLedger).
Proof.
  assert (H : findResultDetails "a.pem" (Results (results exampleWorld)) = Some exampleLedger)
    by reflexivity.
  split; [exact H|].
  destruct (call_changes_one_list_of_one_ledger (results exampleWorld)
              (CallWarn "a.pem" "filecontent" "again" [] High) "a.pem" exampleLedger H)
    as (rd' & Hfind & Hf & _ & Hi).
  exists rd'. split; [exact Hfind|].
  split; [apply Hf; now right|apply Hi; now right].
Defined.

Lemma ReportWarnings_prints_all_warnings_or_nothing_witness :
  NoDup (map Filename (Results (results exampleWorld))) /\
  ReportWarnings exampleWorld =
  if (Warnings (Types (Summary (results exampleWorld))) >? 0)%Z
  then Ok ((reviewHint ++ newline)%string,
           mkWorld (results exampleWorld)
             (stdout exampleWorld ++ [Print warningsBanner;
                                      RenderTable ["File"; "Warnings"; "Severity"]
                                        (warningTable (results exampleWorld))]))
  else Ok ("", exampleWorld).
Proof.
  split; [exact exampleWorld_distinct_paths|].
  exact (ReportWarnings_prints_all_warnings_or_nothing exampleWorld
           exampleWorld_distinct_paths).
Defined.

Lemma Report_is_silent_without_failures_witness :
  HasFailures (results exampleQuietWorld) = false /\
  Report exampleHash "linux" exampleMarshalConfig exampleMarshalRC exampleGitAdd
    examplePrompt exampleQuietWorld = Ok ("", exampleQuietWorld).
Proof.
  assert (H : HasFailures (results exampleQuietWorld) = false) by reflexivity.
  split; [exact H|].
  exact (Report_is_silent_without_failures exampleHash "linux" exampleMarshalConfig
           exampleMarshalRC exampleGitAdd examplePrompt exampleQuietWorld H).
Defined.

Lemma Report_prints_suggestion_when_not_interactive_witness :
  HasFailures (results exampleWorld) = true /\
  (Interactive examplePrompt = false \/ "linux" = "windows") /\
  NoDup (map Filename (Results (results exampleWorld))) /\
  Report exampleHash "linux" exampleMarshalConfig exampleMarshalRC exampleGitAdd
    examplePrompt exampleWorld =
  Ok ("",
      mkWorld (results exampleWorld)
        (stdout exampleWorld ++
         [Print reportBanner;
          RenderTable ["File"; "Errors"; "Severity"] (failureTable (results exampleWorld));
          Print newline;
          Print (suggestString ++ newline);
          Print (exampleMarshalRC
                   (buildEntries exampleHash (mode (results exampleWorld))
                      (UniqueItems
                         (map Filename
                            (filter hasFailuresOrIgnores
                               (Results (results exampleWorld))))))
                 ++ newline)])).
Proof.
  assert (H1 : HasFailures (results exampleWorld) = true) by reflexivity.
  assert (H2 : Interactive examplePrompt = false \/ "linux" = "windows")
    by (left; reflexivity).
  split; [exact H1|]. split; [exact H2|]. split; [exact exampleWorld_distinct_paths|].
  exact (Report_prints_suggestion_when_not_interactive exampleHash "linux"
           exampleMarshalConfig exampleMarshalRC exampleGitAdd examplePrompt exampleWorld
           H1 H2 exampleWorld_distinct_paths).
Defined.

Lemma interactive_suggestion_adds_confirmed_entries_witness :
  Interactive exampleInteractivePrompt = true /\
  "linux" <> "windows" /\
  suggestTalismanRC exampleHash "linux" exampleMarshalConfig exampleMarshalRC
    exampleGitAdd ["a.pem"; "b.txt"] exampleInteractivePrompt exampleWorld =
  Ok (tt,
      mkWorld (results exampleWorld)
        [Print ("==== Interactively adding to talismanrc ====" ++ newline);
         Print newline; Print ("a.pem" ++ newline);
         Confirm "Do you want to add a.pem with above checksum in talismanrc ?" true;
         Print newline; Print ("b.txt" ++ newline);
         Confirm "Do you want to add b.txt with above checksum in talismanrc ?" false;
         AddIgnores exampleMode [mkIgnoreConfig "a.pem" "a.pem" []];
         ExecCommand ["git"; "add"; ".talismanrc"]]).
Proof.
  assert (H1 : Interactive exampleInteractivePrompt = true) by reflexivity.
  assert (H2 : "linux" <> "windows") by discriminate.
  split; [exact H1|]. split; [exact H2|].
  destruct (interactive_suggestion_adds_confirmed_entries exampleHash "linux"
              exampleMarshalConfig exampleMarshalRC exampleGitAdd ["a.pem"; "b.txt"]
              exampleInteractivePrompt exampleWorld H1 H2) as (logged & Hrun & Hlog).
  simpl in Hlog. subst logged. exact Hrun.
Defined.

Lemma rows_have_bounded_messages_witness :
  findResultDetails "a.pem" (Results (results exampleWorld)) = Some exampleLedger /\
  exists failureData warningData,
    ReportFileFailures "a.pem" exampleWorld = Ok (failureData, exampleWorld) /\
    ReportFileWarnings "a.pem" exampleWorld = Ok (warningData, exampleWorld) /\
    List.length failureData = List.length (FailureList exampleLedger) /\
    List.length warningData = List.length (WarningList exampleLedger).
Proof.
  assert (H : findResultDetails "a.pem" (Results (results exampleWorld)) = Some exampleLedger)
    by reflexivity.
  split; [exact H|].
  destruct (rows_have_bounded_messages exampleWorld "a.pem" exampleLedger H)
    as (fd & wd & H1 & H2 & H3 & H4 & _).
  exists fd, wd. auto.
Defined.

Lemma failures_reported_are_stored_witness :
  (Z.of_nat (List.length exampleCalls) <= max_int)%Z /\
  HasFailures (run exampleCalls (NewDetectionResults exampleMode)) = true /\
  failureTable (run exampleCalls (NewDetectionResults exampleMode)) <> [].
Proof.
  assert (H1 : (Z.of_nat (List.length exampleCalls) <= max_int)%Z).
  { simpl. unfold max_int, int_bits. lia. }
  assert (H2 : HasFailures (run exampleCalls (NewDetectionResults exampleMode)) = true)
    by reflexivity.
  split; [exact H1|]. split; [exact H2|].
  exact (proj1 (failures_reported_are_stored exampleMode exampleCalls H1 H2)).
Defined.

Lemma Report_prints_and_returns_empty_string_witness :
  NoDup (map Filename (Results (results exampleWorld))) /\
  flat_map (failureRows (results exampleWorld))
    (filter hasFailuresOrIgnores (Results (results exampleWorld)))
  = failureTable (results exampleWorld) /\
  flat_map (warningRows (results exampleWorld))
    (filter hasWarningEntries (Results (results exampleWorld)))
  = warningTable (results exampleWorld).
Proof.
  assert (H : NoDup (map Filename (Results (results exampleWorld))))
    by exact exampleWorld_distinct_paths.
  split; [exact H|].
  exact (proj2 (proj2 (proj2 (Report_prints_and_returns_empty_string exampleHash "linux"
                                exampleMarshalConfig exampleMarshalRC exampleGitAdd
                                examplePrompt exampleWorld))) H).
Defined.

Example Report_on_the_example_run :
  Report exampleHash "linux" exampleMarshalConfig exampleMarshalRC exampleGitAdd
    exampleInteractivePrompt exampleWorld
  = Ok ("",
        mkWorld (results exampleWorld)
          [Print reportBanner;
           RenderTable ["File"; "Errors"; "Severity"]
             [["a.pem";
               (substring 0 75 exampleLongMessage ++ newline
                ++ substring 75 72 exampleLongMessage ++ "...")%string;
               "high"];
              ["notes.txt"; "odd"; "medium"]];
           Print newline;
           Print ("==== Interactively adding to talismanrc ====" ++ newline);
           Print newline;
           Print (fst (exampleMarshalConfig
                         (BuildIgnoreConfig exampleMode "a.pem" (exampleHash ["a.pem"]) []))
                  ++ newline);
           Confirm "Do you want to add a.pem with above checksum in talismanrc ?" true;
           Print newline;
           Print (fst (exampleMarshalConfig
                         (BuildIgnoreConfig exampleMode "notes.txt"
                            (exampleHash ["notes.txt"]) []))
                  ++ newline);
           Confirm "Do you want to add notes.txt with above checksum in talismanrc ?" false;
           AddIgnores exampleMode
             [BuildIgnoreConfig exampleMode "a.pem" (exampleHash ["a.pem"]) []];
           ExecCommand ["git"; "add"; ".talismanrc"]]).
Proof. vm_compute. reflexivity. Qed.
